(** * ml_project/train.py: configuration-driven training run

    A shallow embedding of [src/ml_project/train.py]: the pipeline assembled
    from configuration, the cross-validation pass, the fit on the training
    split, the ROC-AUC evaluation on the test split and the persistence of
    the metric and of the fitted pipeline.

    The script is straight-line Python in which every library call may
    raise.  It is embedded in a state-and-exception monad over a [World]
    (file system, object heap, trace of the calls made).  The libraries it
    calls (pandas, scikit-learn, os, json) are modelled by their documented
    behaviour; the learning algorithms themselves, the repository's data
    cleaning and its class lookup stay parameters ([Collaborators]). *)

From Stdlib Require Import ZArith QArith String Ascii List Lia.
From stdpp Require Import base option list gmap strings sets.

Local Open Scope string_scope.
Local Open Scope list_scope.

(** ** Exceptions *)

(** The script defines no exception type of its own: what it raises are the
    exceptions of the libraries it calls.  They are grouped by the kind of
    failure: unknown class name, rejected constructor arguments, missing
    configuration key, unusable data (unreadable file, missing column,
    degenerate target, index out of range), failure inside an estimator or
    scorer, file-system write failure. *)
Inductive Error : Type :=
| ResolutionError
| ConstructionError
| ConfigValidationError
| DataError
| ComputeError
| PersistenceError.

Inductive Outcome (A : Type) : Type :=
| Ok (a : A)
| Raise (e : Error).
Arguments Ok {A} a.
Arguments Raise {A} e.

Definition is_ok {A} (r : Outcome A) : bool :=
  match r with Ok _ => true | Raise _ => false end.

#[global] Instance Outcome_ret : MRet Outcome := fun A a => Ok a.
#[global] Instance Outcome_bind : MBind Outcome := fun A B f m =>
  match m with Ok a => f a | Raise e => Raise e end.

(** A list comprehension over [l] whose body [f] may raise: left to right, the first
    exception wins. *)
Fixpoint traverse {A B} (f : A → Outcome B) (l : list A) : Outcome (list B) :=
  match l with
  | [] => Ok []
  | x :: l' =>
      match f x with
      | Raise e => Raise e
      | Ok y => match traverse f l' with
                | Raise e => Raise e
                | Ok ys => Ok (y :: ys)
                end
      end
  end.

(** ** Configuration

    Modelled from the spec: the dataclasses of the [config] module are not
    among the sources.  The fields are those of the specification's data
    model, under the names by which [train.py] reads them. *)

Inductive Value : Type :=
| VStr (s : string)
| VInt (z : Z)
| VNum (q : Q)
| VBool (b : bool)
| VNone.

(** A path as configured: relative or absolute, as a list of components. *)
Record Path : Type := MkPath { is_abs : bool; parts : list string }.

Record TransformSpec : Type := MkTransformSpec {
  stage_name : string;
  classname : string;
  params : gmap string Value;
  columns : list string
}.

Record DataConfig : Type := MkDataConfig {
  path_to_train : Path;
  path_to_test : Path;
  unique_values_limit : Z;
  target_variable : string
}.

Record CrossValConfig : Type := MkCrossValConfig {
  scores : list string;
  cv : nat
}.

(** [cls_config] is a flat mapping: the key ["classname"] next to the
    classifier's keyword arguments. *)
Record TrainConfig : Type := MkTrainConfig {
  data_config : DataConfig;
  transformers : list TransformSpec;     (* cfg.feature_transform.transformers *)
  cls_config : gmap string Value;
  cross_val_config : CrossValConfig;     (* cfg.cross_val *)
  output_metric : Path;
  model_path : Path
}.

(** ** Tables *)

Inductive Cell : Type :=
| CNum (q : Q)
| CStr (s : string)
| CNaN.

(** A [pandas.DataFrame]: its column labels in order, and its rows.  A cell
    a row does not carry reads as NaN. *)
Record DataFrame : Type := MkDataFrame {
  df_columns : list string;
  df_rows : list (gmap string Cell)
}.

(** A two-dimensional array (what transformers consume and produce). *)
Definition Table : Type := list (list Cell).

(** A float as numpy holds it: a finite number (an exact rational here),
    NaN, or an infinity. *)
Inductive Float : Type :=
| FNum (q : Q)
| FNaN
| FInf (negative : bool).

Definition is_finite (x : Float) : bool :=
  match x with FNum _ => true | _ => false end.

(** [check_array] on an array of floats: NaN and the infinities are
    rejected. *)
Definition as_number (x : Float) : Outcome Q :=
  match x with FNum q => Ok q | _ => Raise DataError end.

(** A cell of what [cross_validate] returns: a measured duration, whose
    value is not modelled, or a test score. *)
Inductive CvCell : Type :=
| Elapsed
| TestScore (x : Float).

(** [pd.DataFrame(cross_val_score)]: the keys of the dictionary as column
    labels, one row per fold. *)
Record ScoreFrame : Type := MkScoreFrame {
  sf_columns : list string;
  sf_rows : list (list CvCell)
}.

(** [DataFrame.append]: the rows of [b] after the rows of [a]; the columns
    of [a] followed by those that only [b] has. *)
Definition df_append (a b : DataFrame) : DataFrame :=
  {| df_columns := df_columns a ++
                   filter (λ c, c ∉ df_columns a) (df_columns b);
     df_rows := df_rows a ++ df_rows b |}.

Definition cell_at (r : gmap string Cell) (c : string) : Cell :=
  default CNaN (r !! c).

(** [X[columns]] as [ColumnTransformer] takes it: a label that is not a
    column of the frame is an error. *)
Definition select_columns (cols : list string) (X : DataFrame) : Outcome Table :=
  if forallb (λ c, bool_decide (c ∈ df_columns X)) cols
  then Ok (map (λ r, map (cell_at r) cols) (df_rows X))
  else Raise DataError.

(** ** The metric

    [sklearn.metrics.roc_auc_score] on a one-dimensional score vector, with
    exact rationals for finite floats: a NaN or an infinite score is
    rejected, and so are scores that are not one per label; the metric is
    defined for a binary target only, where the greater label is the
    positive class; the area under the ROC curve is the share of
    (positive, negative) pairs that the scores order correctly, a tie
    counting one half. *)

Definition pair_credit (p n : Q) : Z :=
  match Qcompare p n with
  | Gt => 2
  | Eq => 1
  | Lt => 0
  end.

Definition row_credit (neg : list Q) (p : Q) : Z :=
  foldr (λ n acc, pair_credit p n + acc)%Z 0%Z neg.

Definition concordance (pos neg : list Q) : Z :=
  foldr (λ p acc, row_credit neg p + acc)%Z 0%Z pos.

Definition roc_auc (pos neg : list Q) : Q :=
  Qmake (concordance pos neg)
        (Z.to_pos (2 * Z.of_nat (length pos) * Z.of_nat (length neg))).

(** The scores of the samples whose label satisfies [keep]. *)
Definition scores_where (keep : Z → bool) (y_true : list Z) (y_score : list Q)
  : list Q :=
  map snd (filter (λ ys, keep ys.1 = true) (zip y_true y_score)).

Definition roc_auc_score (y_true : list Z) (y_score : list Float) : Outcome Q :=
  match traverse as_number y_score with
  | Raise e => Raise e           (* a score that is NaN or infinite *)
  | Ok y_score =>
      if bool_decide (length y_true = length y_score) then
        match remove_dups y_true with
        | [a; b] =>
            let hi := Z.max a b in
            Ok (roc_auc (scores_where (Z.eqb hi) y_true y_score)
                        (scores_where (λ l, negb (Z.eqb hi l)) y_true y_score))
        | _ => Raise DataError   (* one class only, or not a binary target *)
        end
      else Raise DataError
  end.

(** ** The metric file *)

Definition dquote : string := String (ascii_of_nat 34) EmptyString.

(** [json.dump] of a dictionary from strings to floats, with the default
    separators. *)
Definition json_dump (repr : Q → string) (d : list (string * Q)) : string :=
  "{" +:+ String.concat ", "
            (map (λ kv, dquote +:+ kv.1 +:+ dquote +:+ ": " +:+ repr kv.2) d)
      +:+ "}".

(** ** Estimators and the pipeline *)

(** An estimator as constructed: its class and the keyword arguments its
    constructor received. *)
Record Estimator : Type := MkEstimator {
  est_class : string;
  est_kwargs : gmap string Value
}.

Inductive Remainder : Type := Drop | Passthrough.

Record ColumnTransformer : Type := MkColumnTransformer {
  ct_transformers : list (string * Estimator * list string);
  remainder : Remainder
}.

Inductive Step : Type :=
| StepColumns (ct : ColumnTransformer)
| StepEstimator (e : Estimator).

Record Pipeline : Type := MkPipeline { steps : list (string * Step) }.

(** ** What the script takes from elsewhere *)

Record Fold : Type := MkFold {
  fold_train : DataFrame * list Z;
  fold_test : DataFrame * list Z
}.

Class Collaborators : Type := {
  (** [utils.get_class_type]: can the qualified name be located? *)
  class_known : string → bool;
  (** does the class's constructor take these keyword arguments? *)
  kwargs_accepted : string → gmap string Value → bool;
  (** [heat_diss.preprocessing] *)
  clean_data : DataFrame → Z → Outcome DataFrame;
  feature_target_split : DataFrame → string → Outcome (DataFrame * list Z);
  (** what an estimator learns, and the three estimator methods *)
  Learned : Type;
  est_fit : Estimator → Table → list Z → Outcome Learned;
  est_transform : Estimator → Learned → Table → Outcome Table;
  est_predict_proba : Estimator → Learned → Table → Outcome (list (list Float));
  (** the splitter [cross_validate] derives from [cv], and the scorer a
      name of [scoring] stands for: a function of the class probabilities
      predicted on the held-out fold and of the true labels *)
  cv_split : nat → DataFrame → list Z → Outcome (list Fold);
  get_scorer : string → option (list (list Float) → list Z → Outcome Q);
  (** [float.__repr__], as [json.dump] prints a float *)
  float_repr : Q → string
}.

Section Program.
Context `{Collaborators}.

(** Modelled from the spec: [utils.get_class_type] is not among the sources.
    Given a qualified type name it returns the class, and fails with a
    ResolutionError if the name cannot be located; calling the class with
    keyword arguments its constructor rejects fails with a
    ConstructionError.  [instantiate name kw] is the class found for [name]
    called with the keyword arguments [kw]. *)
Definition instantiate (name : string) (kw : gmap string Value) : Outcome Estimator :=
  if class_known name then
    if kwargs_accepted name kw then Ok (MkEstimator name kw)
    else Raise ConstructionError
  else Raise ResolutionError.

(** One element of the list comprehension of lines 48-50. *)
Definition transformer_entry (t : TransformSpec)
  : Outcome (string * Estimator * list string) :=
  e ← instantiate (classname t) (params t);
  Ok (stage_name t, e, columns t).

(** [cfg.cls_config.classname] *)
Definition cls_classname (cfg : TrainConfig) : Outcome string :=
  match cls_config cfg !! "classname" with
  | Some (VStr s) => Ok s
  | Some _ => Raise ResolutionError
  | None => Raise ConfigValidationError
  end.

(** Lines 51-52: [cls_params = dict(cfg.cls_config)] and
    [cls_params.pop("classname")], which raises if the key is missing. *)
Definition cls_params (cfg : TrainConfig) : Outcome (gmap string Value) :=
  let d := cls_config cfg in
  match d !! "classname" with
  | Some _ => Ok (delete "classname" d)
  | None => Raise ConfigValidationError
  end.

(** Lines 48-58 of [train]: the pipeline as a value. *)
Definition build_pipeline (cfg : TrainConfig) : Outcome Pipeline :=
  entries ← traverse transformer_entry (transformers cfg);
  let column_transformers := MkColumnTransformer entries Drop in
  kw ← cls_params cfg;
  name ← cls_classname cfg;
  cls ← instantiate name kw;
  Ok (MkPipeline [("feature_transform", StepColumns column_transformers);
                  ("cls", StepEstimator cls)]).

(** ** What the assembled pipeline computes

    [ColumnTransformer] and [Pipeline] as scikit-learn documents them. *)

(** [numpy.hstack] of blocks of [n] rows each. *)
Definition hstack (n : nat) (blocks : list Table) : Outcome Table :=
  if forallb (λ b, bool_decide (length b = n)) blocks
  then Ok (foldr (zip_with app) (replicate n []) blocks)
  else Raise ComputeError.

Definition referenced_columns (ct : ColumnTransformer) : list string :=
  concat (map snd (ct_transformers ct)).

(** The block of columns no transformer was given: nothing under [Drop],
    the untouched columns under [Passthrough]. *)
Definition remainder_block (ct : ColumnTransformer) (X : DataFrame)
  : Outcome (list Table) :=
  match remainder ct with
  | Drop => Ok []
  | Passthrough =>
      blk ← select_columns
               (filter (λ c, c ∉ referenced_columns ct) (df_columns X)) X;
      Ok [blk]
  end.

Definition fit_transform_entry (X : DataFrame) (y : list Z)
    (entry : string * Estimator * list string) : Outcome (Learned * Table) :=
  let '(_, e, cols) := entry in
  sub ← select_columns cols X;
  s ← est_fit e sub y;
  out ← est_transform e s sub;
  Ok (s, out).

Definition transform_entry (X : DataFrame)
    (entry : (string * Estimator * list string) * Learned) : Outcome Table :=
  let '((_, e, cols), s) := entry in
  sub ← select_columns cols X;
  est_transform e s sub.

(** [ColumnTransformer.fit_transform]: what each transformer learned, and
    the transformed feature matrix. *)
Definition ct_fit_transform (ct : ColumnTransformer) (X : DataFrame) (y : list Z)
  : Outcome (list Learned * Table) :=
  fitted ← traverse (fit_transform_entry X y) (ct_transformers ct);
  rest ← remainder_block ct X;
  Xt ← hstack (length (df_rows X)) (map snd fitted ++ rest);
  Ok (map fst fitted, Xt).

(** [ColumnTransformer.transform] *)
Definition ct_transform (ct : ColumnTransformer) (sts : list Learned) (X : DataFrame)
  : Outcome Table :=
  if bool_decide (length sts = length (ct_transformers ct)) then
    outs ← traverse (transform_entry X) (zip (ct_transformers ct) sts);
    rest ← remainder_block ct X;
    hstack (length (df_rows X)) (outs ++ rest)
  else Raise ComputeError.

(** The learned state of a fitted pipeline. *)
Record Fitted : Type := MkFitted {
  ct_state : list Learned;
  cls_state : Learned
}.

(** [Pipeline.fit] *)
Definition pipeline_fit (p : Pipeline) (X : DataFrame) (y : list Z) : Outcome Fitted :=
  match steps p with
  | [(_, StepColumns ct); (_, StepEstimator cls)] =>
      '(sts, Xt) ← ct_fit_transform ct X y;
      s ← est_fit cls Xt y;
      Ok (MkFitted sts s)
  | _ => Raise ComputeError
  end.

(** [Pipeline.predict_proba] *)
Definition pipeline_predict_proba (p : Pipeline) (f : Fitted) (X : DataFrame)
  : Outcome (list (list Float)) :=
  match steps p with
  | [(_, StepColumns ct); (_, StepEstimator cls)] =>
      Xt ← ct_transform ct (ct_state f) X;
      est_predict_proba cls (cls_state f) Xt
  | _ => Raise ComputeError
  end.

(** [a[:, 1]]: entry 1 of every row; out of bounds if a row is shorter. *)
Definition column_1 {A} (a : list (list A)) : Outcome (list A) :=
  traverse (λ row, match row !! 1%nat with
                   | Some q => Ok q
                   | None => Raise DataError
                   end) a.

(** ** The world the script runs in *)

(** A pipeline object on the heap: its structure (fixed at construction),
    what it has learned, and the data of every [fit] call made on it. *)
Record PipelineObj : Type := MkPipelineObj {
  obj_pipeline : Pipeline;
  obj_fitted : option Fitted;
  obj_fits : list (DataFrame * list Z)
}.

(** What a file holds.  [Truncated] is what a write that failed leaves
    behind: a file opened for writing is emptied at once, so what it held
    is gone, and it has not been written in full. *)
Inductive File : Type :=
| CsvFile (d : DataFrame)
| TextFile (s : string)
| PickleFile (o : PipelineObj)
| Truncated.

(** Absolute paths are lists of components; the root is the empty list.
    [locked] are the paths the process may neither create nor open for
    writing; [failing] are the paths that can be opened for writing but on
    which the write itself fails (no space left on the device, a quota, an
    I/O error).

    There are no links, and a file is identified with the list of the
    components of its path: the entries of a file system are kept under
    [plain] paths, those free of the components ".", ".." and the empty
    one, of which two name the same file only if they are equal. *)
Record FS : Type := MkFS {
  dirs : gset (list string);
  files : gmap (list string) File;
  locked : gset (list string);
  failing : gset (list string)
}.

Definition plain (p : list string) : Prop :=
  Forall (λ c : string, c ≠ "." ∧ c ≠ ".." ∧ c ≠ EmptyString) p.

Definition fs_plain (f : FS) : Prop :=
  (∀ d, d ∈ dirs f → plain d) ∧ (∀ p, is_Some (files f !! p) → plain p).

Inductive LogMsg : Type :=
| LogUnion
| LogCrossVal (val_score : ScoreFrame)
| LogTrain
| LogScore (score : Q)
| LogSaveMetric (metric_path : list string)
| LogSaveModel (model_path : list string).

(** The calls the script makes, with their arguments. *)
Inductive Event : Type :=
| NewPipeline (p : Pipeline)
| ReadCsv (path : list string)
| Log (msg : LogMsg)
| CleanData (data : DataFrame) (limit : Z)
| FeatureTargetSplit (data : DataFrame) (target : string)
| CrossValidate (est : nat) (X : DataFrame) (y : list Z)
                (scoring : list string) (cv : nat)
| Fit (est : nat) (X : DataFrame) (y : list Z)
| PredictProba (est : nat) (X : DataFrame)
| RocAucScore (y_true : list Z) (y_score : list Float)
| Makedirs (path : list string)
| WriteText (path : list string) (text : string)
| DumpPickle (est : nat) (path : list string).

(** A trace entry: the call, and whether it returned ([true]) or raised. *)
Definition Entry : Type := Event * bool.

Record World : Type := MkWorld {
  cwd : list string;               (* hydra.utils.get_original_cwd() *)
  fs : FS;
  heap : gmap nat PipelineObj;
  trace : list Entry
}.

Definition M (A : Type) : Type := World → World * Outcome A.

#[global] Instance M_ret : MRet M := fun A a w => (w, Ok a).
#[global] Instance M_bind : MBind M := fun A B f m w =>
  match m w with
  | (w', Ok a) => f a w'
  | (w', Raise e) => (w', Raise e)
  end.

Definition record (ev : Event) (ok : bool) (w : World) : list Entry :=
  trace w ++ [(ev, ok)].

(** A call that touches neither the files nor the heap. *)
Definition call {A} (ev : Event) (r : Outcome A) : M A := fun w =>
  (MkWorld (cwd w) (fs w) (heap w) (record ev (is_ok r) w), r).

(** A call on the file system. *)
Definition fs_call {A} (ev : Event) (body : FS → FS * Outcome A) : M A := fun w =>
  let '(fs', r) := body (fs w) in
  (MkWorld (cwd w) fs' (heap w) (record ev (is_ok r) w), r).

(** A call on the objects of the heap. *)
Definition heap_call {A} (ev : Event)
    (body : gmap nat PipelineObj → gmap nat PipelineObj * Outcome A) : M A := fun w =>
  let '(h', r) := body (heap w) in
  (MkWorld (cwd w) (fs w) h' (record ev (is_ok r) w), r).

(** A step of the script itself that may raise. *)
Definition lift {A} (r : Outcome A) : M A := fun w => (w, r).

(** [LOGGER.info] *)
Definition info (msg : LogMsg) : M unit := call (Log msg) (Ok ()).

(** [os.path.join(hydra.utils.get_original_cwd(), p)]: an absolute second
    argument stands alone.  The components are joined as they are: nothing
    is normalised. *)
Definition resolve (base : list string) (p : Path) : list string :=
  if is_abs p then parts p else base ++ parts p.

Definition original_path (p : Path) : M (list string) := fun w =>
  (w, Ok (resolve (cwd w) p)).

(** [os.path.dirname] *)
Definition dirname (p : list string) : list string := removelast p.

(** *** Files *)

Definition is_dir (p : list string) (f : FS) : bool :=
  bool_decide (p = [] ∨ p ∈ dirs f).

Definition add_dir (p : list string) (f : FS) : FS :=
  MkFS ({[p]} ∪ dirs f) (files f) (locked f) (failing f).

(** [os.makedirs(path, exist_ok=True)], walking down from the directory
    [above]: a component that exists as a directory is entered, one that is
    a file is an error, a missing one is created unless that is denied. *)
Fixpoint makedirs_from (above below : list string) (f : FS) : FS * Outcome unit :=
  match below with
  | [] => (f, Ok ())
  | c :: below' =>
      let p := above ++ [c] in
      if bool_decide (is_Some (files f !! p)) then (f, Raise PersistenceError)
      else if is_dir p f then makedirs_from p below' f
      else if bool_decide (p ∈ locked f) then (f, Raise PersistenceError)
      else makedirs_from p below' (add_dir p f)
  end.

Definition makedirs (path : list string) : FS → FS * Outcome unit :=
  makedirs_from [] path.

(** [open(path, "w")] followed by the write.  If the file cannot be opened,
    nothing changes.  Opening creates the file or empties it, and only then
    is [content] written: a write that fails leaves the file [Truncated],
    one that succeeds leaves it holding [content] and nothing else. *)
Definition write_file (path : list string) (content : File) (f : FS)
  : FS * Outcome unit :=
  if is_dir path f then (f, Raise PersistenceError)
  else if negb (is_dir (dirname path) f) then (f, Raise PersistenceError)
  else if bool_decide (path ∈ locked f) then (f, Raise PersistenceError)
  else if bool_decide (path ∈ failing f) then
    (MkFS (dirs f) (<[path := Truncated]> (files f)) (locked f) (failing f),
     Raise PersistenceError)
  else (MkFS (dirs f) (<[path := content]> (files f)) (locked f) (failing f),
        Ok ()).

(** [pandas.read_csv]; parsing is not modelled, a CSV file holds a frame. *)
Definition load_csv (path : list string) (f : FS) : FS * Outcome DataFrame :=
  match files f !! path with
  | Some (CsvFile d) => (f, Ok d)
  | _ => (f, Raise DataError)
  end.

Definition read_csv (path : list string) : M DataFrame :=
  fs_call (ReadCsv path) (load_csv path).

(** *** Objects *)

(** [pipeline.Pipeline(steps)]: a new, unfitted object. *)
Definition allocate (p : Pipeline) (h : gmap nat PipelineObj)
  : gmap nat PipelineObj * Outcome nat :=
  let id := fresh (dom h) in
  (<[id := MkPipelineObj p None []]> h, Ok id).

Definition new_pipeline (p : Pipeline) : M nat :=
  heap_call (NewPipeline p) (allocate p).

(** [est.fit(X, y)]: the object learns from [(X, y)], in place. *)
Definition fit_in_place (est : nat) (X : DataFrame) (y : list Z)
    (h : gmap nat PipelineObj) : gmap nat PipelineObj * Outcome unit :=
  match h !! est with
  | None => (h, Raise ComputeError)
  | Some o =>
      match pipeline_fit (obj_pipeline o) X y with
      | Raise e => (h, Raise e)
      | Ok f => (<[est := MkPipelineObj (obj_pipeline o) (Some f)
                                        (obj_fits o ++ [(X, y)])]> h, Ok ())
      end
  end.

Definition fit (est : nat) (X : DataFrame) (y : list Z) : M unit :=
  heap_call (Fit est X y) (fit_in_place est X y).

(** [est.predict_proba(X)]: an unfitted object raises. *)
Definition predict_with (est : nat) (X : DataFrame) (h : gmap nat PipelineObj)
  : gmap nat PipelineObj * Outcome (list (list Float)) :=
  match h !! est with
  | Some (MkPipelineObj p (Some f) _) => (h, pipeline_predict_proba p f X)
  | _ => (h, Raise ComputeError)
  end.

Definition predict_proba (est : nat) (X : DataFrame) : M (list (list Float)) :=
  heap_call (PredictProba est X) (predict_with est X).

(** One fold of [cross_validate]: a clone of the estimator is fitted on the
    training part and scored on the held-out part.  Nothing a fold does
    raises ([error_score=nan]): a fit that fails gives NaN for every score,
    and a scorer that fails, or the prediction it asks for, gives NaN for
    that score.  The result says whether the fit succeeded, and holds the
    row of the fold: the two durations, then one test score per scorer. *)
Definition run_fold (p : Pipeline)
    (scorers : list (list (list Float) → list Z → Outcome Q))
    (fd : Fold) (h : gmap nat PipelineObj)
  : gmap nat PipelineObj * (bool * list CvCell) :=
  let c := fresh (dom h) in
  let '(Xtr, ytr) := fold_train fd in
  let '(Xte, yte) := fold_test fd in
  match pipeline_fit p Xtr ytr with
  | Raise _ =>
      (<[c := MkPipelineObj p None []]> h,
       (false, [Elapsed; Elapsed] ++ map (λ _, TestScore FNaN) scorers))
  | Ok f =>
      (<[c := MkPipelineObj p (Some f) [(Xtr, ytr)]]> h,
       (true,
        [Elapsed; Elapsed] ++
        map (λ sc, TestScore
                     match proba ← pipeline_predict_proba p f Xte; sc proba yte with
                     | Ok q => FNum q
                     | Raise _ => FNaN
                     end) scorers))
  end.

Fixpoint run_folds (p : Pipeline)
    (scorers : list (list (list Float) → list Z → Outcome Q))
    (folds : list Fold) (h : gmap nat PipelineObj)
  : gmap nat PipelineObj * list (bool * list CvCell) :=
  match folds with
  | [] => (h, [])
  | fd :: folds' =>
      let '(h1, res) := run_fold p scorers fd h in
      let '(h2, rest) := run_folds p scorers folds' h1 in
      (h2, res :: rest)
  end.

(** The scorers that the names of [scoring] stand for: the list must not be
    empty, must not name a scorer twice, and every name must be known. *)
Definition check_scoring (scoring : list string)
  : Outcome (list (list (list Float) → list Z → Outcome Q)) :=
  if bool_decide (scoring = []) then Raise ComputeError
  else if bool_decide (NoDup scoring) then
    traverse (λ s, match get_scorer s with
                   | Some sc => Ok sc
                   | None => Raise ComputeError
                   end) scoring
  else Raise ComputeError.

(** [model_selection.cross_validate(est, X, y, scoring=..., cv=...)]: the
    scoring is checked, the data split, and every fold run; if the fit has
    failed in every fold (or there is no fold) the call raises, otherwise
    it returns the columns fit_time and score_time and one column test_NAME
    for each name of [scoring], with one row per fold. *)
Definition cross_validate_clones (est : nat) (X : DataFrame) (y : list Z)
    (scoring : list string) (cv : nat) (h : gmap nat PipelineObj)
  : gmap nat PipelineObj * Outcome ScoreFrame :=
  match h !! est with
  | None => (h, Raise ComputeError)
  | Some o =>
      match check_scoring scoring with
      | Raise e => (h, Raise e)
      | Ok scorers =>
          match cv_split cv X y with
          | Raise e => (h, Raise e)
          | Ok folds =>
              let '(h', results) := run_folds (obj_pipeline o) scorers folds h in
              if forallb (λ res : bool * list CvCell, negb res.1) results
              then (h', Raise ComputeError)
              else (h', Ok (MkScoreFrame
                              (["fit_time"; "score_time"]
                               ++ map (λ s, "test_" +:+ s) scoring)
                              (map snd results)))
          end
      end
  end.

Definition cross_validate (est : nat) (X : DataFrame) (y : list Z)
    (scoring : list string) (cv : nat) : M ScoreFrame :=
  heap_call (CrossValidate est X y scoring cv)
            (cross_validate_clones est X y scoring cv).

(** Modelled from the spec: [utils.dump_pickle] is not among the sources.
    It writes the fitted pipeline object as an opaque serialized artifact
    to the model path; the artifact is the object as it is at that time. *)
Definition write_pickle (o : option PipelineObj) (path : list string) (f : FS)
  : FS * Outcome unit :=
  match o with
  | None => (f, Raise PersistenceError)
  | Some o => write_file path (PickleFile o) f
  end.

Definition dump_pickle (est : nat) (path : list string) : M unit := fun w =>
  fs_call (DumpPickle est path) (write_pickle (heap w !! est) path) w.

(** ** The script *)

(** Lines 28-30. *)
Definition prepare_date (data : DataFrame) (uniq_values_limit : Z)
    (target_variable : string) : M (DataFrame * list Z) :=
  data ← call (CleanData data uniq_values_limit)
              (clean_data data uniq_values_limit);
  call (FeatureTargetSplit data target_variable)
       (feature_target_split data target_variable).

(** Lines 33-43. *)
Definition cross_val (cls_pipeline : nat) (data : DataFrame) (cfg : TrainConfig)
  : M unit :=
  '(features, target) ← prepare_date data
                          (unique_values_limit (data_config cfg))
                          (target_variable (data_config cfg));
  cross_val_score ← cross_validate cls_pipeline features target
                      (scores (cross_val_config cfg))
                      (cv (cross_val_config cfg));
  let val_score := cross_val_score in
  info (LogCrossVal val_score).

(** The text of lines 97-99. *)
Definition metric_text (score : Q) : string :=
  json_dump float_repr [("ROC AUC", score)].

(** Lines 95-99: the metric file. *)
Definition save_metric (metric_path : list string) (score : Q) : M unit :=
  fs_call (Makedirs (dirname metric_path)) (makedirs (dirname metric_path));;
  fs_call (WriteText metric_path (metric_text score))
          (write_file metric_path (TextFile (metric_text score))).

(** Lines 47-105. *)
Definition train (cfg : TrainConfig) : M unit :=
  p ← lift (build_pipeline cfg);
  cls_pipeline ← new_pipeline p;
  train_path ← original_path (path_to_train (data_config cfg));
  train_data ← read_csv train_path;
  test_path ← original_path (path_to_test (data_config cfg));
  test_data ← read_csv test_path;
  info LogUnion;;
  let union_data := df_append train_data test_data in
  cross_val cls_pipeline union_data cfg;;
  (* del union_data *)
  info LogTrain;;
  '(train_features, train_target) ← prepare_date train_data
                                      (unique_values_limit (data_config cfg))
                                      (target_variable (data_config cfg));
  fit cls_pipeline train_features train_target;;
  '(test_features, test_target) ← prepare_date test_data
                                    (unique_values_limit (data_config cfg))
                                    (target_variable (data_config cfg));
  proba ← predict_proba cls_pipeline test_features;
  predicted_proba ← lift (column_1 proba);
  score ← call (RocAucScore test_target predicted_proba)
               (roc_auc_score test_target predicted_proba);
  metric_path ← original_path (output_metric cfg);
  info (LogScore score);;
  info (LogSaveMetric metric_path);;
  save_metric metric_path score;;
  model_path ← original_path (model_path cfg);
  info (LogSaveModel model_path);;
  dump_pickle cls_pipeline model_path.

(** The entries a run adds to the trace. *)
Definition new_entries (w w' : World) : list Entry :=
  drop (length (trace w)) (trace w').

(** [prepare_date] as a function of the data alone. *)
Definition prepared (cfg : TrainConfig) (data : DataFrame)
  : Outcome (DataFrame * list Z) :=
  cleaned ← clean_data data (unique_values_limit (data_config cfg));
  feature_target_split cleaned (target_variable (data_config cfg)).

(** [hydra.main]: the exit status of the process. *)
Definition main (cfg : TrainConfig) (w : World) : World * Z :=
  let '(w', r) := train cfg w in
  (w', if is_ok r then 0%Z else 1%Z).

End Program.

(** ** The lifecycle of a run *)

Inductive Kind : Type :=
| KNewPipeline | KReadCsv | KLog | KCleanData | KFeatureTargetSplit
| KCrossValidate | KFit | KPredictProba | KRocAucScore
| KMakedirs | KWriteText | KDumpPickle.

Definition kind (e : Event) : Kind :=
  match e with
  | NewPipeline _ => KNewPipeline
  | ReadCsv _ => KReadCsv
  | Log _ => KLog
  | CleanData _ _ => KCleanData
  | FeatureTargetSplit _ _ => KFeatureTargetSplit
  | CrossValidate _ _ _ _ _ => KCrossValidate
  | Fit _ _ _ => KFit
  | PredictProba _ _ => KPredictProba
  | RocAucScore _ _ => KRocAucScore
  | Makedirs _ => KMakedirs
  | WriteText _ _ => KWriteText
  | DumpPickle _ _ => KDumpPickle
  end.

Inductive Stage : Type :=
| ConfigLoaded | PipelineBuilt | DataLoaded | CrossValidated
| Trained | Evaluated | Persisted | Done | Failed.

#[global] Instance Kind_eq_dec : EqDecision Kind.
Proof. solve_decision. Defined.
#[global] Instance Stage_eq_dec : EqDecision Stage.
Proof. solve_decision. Defined.






(** ** Agreement of frames on a set of columns *)

(** Two frames agree on [cols] when each of these labels is a column of
    both or of neither, and the frames have the same rows as far as these
    columns go. *)
Definition agree_on (cols : list string) (X X' : DataFrame) : Prop :=
  (∀ c, c ∈ cols → (c ∈ df_columns X ↔ c ∈ df_columns X')) ∧
  Forall2 (λ r r' : gmap string Cell, ∀ c, c ∈ cols → r !! c = r' !! c)
          (df_rows X) (df_rows X').

(** What a run did, call by call: the kind of each call and whether it
    returned. *)
Definition outcomes (new : list (Event * bool)) : list (Kind * bool) :=
  map (λ e, (kind e.1, e.2)) new.

(** ** A small instance

    Two classes are known: an identity transformer and a classifier that
    reads the probability of the positive class off the first feature.
    Cleaning keeps the data as it is; the target column holds integers. *)
Module Sample.

Definition cell_label (c : Cell) : Outcome Z :=
  match c with
  | CNum q => Ok (Qnum q)
  | _ => Raise DataError
  end.

Definition split_target (data : DataFrame) (target : string)
  : Outcome (DataFrame * list Z) :=
  if bool_decide (target ∈ df_columns data) then
    y ← traverse (λ r, cell_label (cell_at r target)) (df_rows data);
    Ok (MkDataFrame (filter (λ c, c ≠ target) (df_columns data))
                    (map (delete target) (df_rows data)), y)
  else Raise DataError.

Definition first_feature (row : list Cell) : Outcome (list Float) :=
  match row with
  | CNum q :: _ => Ok [FNum (1 - q); FNum q]
  | _ => Raise ComputeError
  end.

Definition print_float (q : Q) : string :=
  if Qeq_bool q 1 then "1.0"
  else if Qeq_bool q (3 # 4) then "0.75"
  else if Qeq_bool q (1 # 2) then "0.5"
  else "0.0".

#[export] Instance sample : Collaborators := {|
  class_known name :=
    bool_decide (name ∈ ["sklearn.preprocessing.FunctionTransformer";
                         "sklearn.linear_model.LogisticRegression"]);
  kwargs_accepted name kw := bool_decide (kw !! "classname" = None);
  clean_data data limit := Ok data;
  feature_target_split := split_target;
  Learned := unit;
  est_fit e X y := Ok ();
  est_transform e s X := Ok X;
  est_predict_proba e s X := traverse first_feature X;
  cv_split k X y := Ok (replicate k (MkFold (X, y) (X, y)));
  get_scorer name :=
    if bool_decide (name = "roc_auc")
    then Some (λ proba y, s ← column_1 proba; roc_auc_score y s)
    else None;
  float_repr := print_float
|}.

Definition row (x : Q) (noise : Q) (label : Z) : gmap string Cell :=
  {[ "x" := CNum x; "noise" := CNum noise; "y" := CNum (inject_Z label) ]}.

Definition train_csv : DataFrame :=
  MkDataFrame ["x"; "noise"; "y"]
    [row (1 # 10) 5 0; row (9 # 10) 6 1; row (4 # 10) 7 1; row (5 # 10) 8 0].

Definition test_csv : DataFrame :=
  MkDataFrame ["x"; "noise"; "y"]
    [row (2 # 10) 1 0; row (8 # 10) 2 1; row (3 # 10) 3 1; row (6 # 10) 4 0].

Definition cfg : TrainConfig :=
  {| data_config := MkDataConfig (MkPath false ["data"; "train.csv"])
                                 (MkPath false ["data"; "test.csv"]) 10 "y";
     transformers := [MkTransformSpec "keep"
                        "sklearn.preprocessing.FunctionTransformer" ∅ ["x"]];
     cls_config := {[ "classname" := VStr "sklearn.linear_model.LogisticRegression";
                      "C" := VInt 1 ]};
     cross_val_config := MkCrossValConfig ["roc_auc"] 2;
     output_metric := MkPath false ["out"; "metric.json"];
     model_path := MkPath false ["model.pkl"] |}.

Definition disk : FS :=
  MkFS {[ ["work"]; ["work"; "data"] ]}
       {[ ["work"; "data"; "train.csv"] := CsvFile train_csv;
          ["work"; "data"; "test.csv"] := CsvFile test_csv ]}
       ∅ ∅.

Definition world : World := MkWorld ["work"] disk ∅ [].

(** The same, with the metric file write-protected. *)
Definition protected_world : World :=
  MkWorld ["work"]
          (MkFS (dirs disk) (files disk) {[ ["work"; "out"; "metric.json"] ]} ∅)
          ∅ [].

(** The same, with a third class in the target of the test file. *)
Definition test_csv_three : DataFrame :=
  MkDataFrame ["x"; "noise"; "y"]
    [row (2 # 10) 1 0; row (8 # 10) 2 1; row (3 # 10) 3 2; row (6 # 10) 4 0].

Definition three_class_world : World :=
  MkWorld ["work"]
          (MkFS (dirs disk)
                (<[ ["work"; "data"; "test.csv"] := CsvFile test_csv_three ]>
                   (files disk))
                ∅ ∅)
          ∅ [].

(** The same as [disk] with a metric file of an earlier run, on a device
    on which writing to the metric file fails. *)
Definition full_world : World :=
  MkWorld ["work"]
          (MkFS ({[ ["work"; "out"] ]} ∪ dirs disk)
                (<[ ["work"; "out"; "metric.json"] := TextFile "earlier" ]>
                   (files disk))
                ∅ {[ ["work"; "out"; "metric.json"] ]})
          ∅ [].

(** The configuration with no scorer for the cross-validation. *)
Definition cfg_unscored : TrainConfig :=
  MkTrainConfig (data_config cfg) (transformers cfg) (cls_config cfg)
                (MkCrossValConfig [] 2) (output_metric cfg) (model_path cfg).

(** What the configuration above assembles. *)
Definition pipeline : Pipeline :=
  MkPipeline
    [("feature_transform",
      StepColumns (MkColumnTransformer
                     [("keep",
                       MkEstimator "sklearn.preprocessing.FunctionTransformer" ∅,
                       ["x"])]
                     Drop));
     ("cls",
      StepEstimator (MkEstimator "sklearn.linear_model.LogisticRegression"
                                 {[ "C" := VInt 1 ]}))].

(** The train frame with other noise and one more column. *)
Definition train_csv_other : DataFrame :=
  MkDataFrame ["x"; "noise"; "y"; "extra"]
    (map (λ r, <["extra" := CStr "e"]> (<["noise" := CNum 0]> r))
         (df_rows train_csv)).

Definition features (data : DataFrame) : DataFrame :=
  MkDataFrame ["x"; "noise"] (map (delete "y") (df_rows data)).

(** The calls of the run from [world] that the properties below are about. *)
Definition cv_event : Event :=
  CrossValidate 0 (features (df_append train_csv test_csv))
                [0; 1; 1; 0; 0; 1; 1; 0]%Z ["roc_auc"] 2.

Definition auc_event : Event :=
  RocAucScore [0; 1; 1; 0]%Z [FNum (2 # 10); FNum (8 # 10); FNum (3 # 10); FNum (6 # 10)].

(** A frame with columns A, B and C, and a transformer over A alone. *)
Definition abc : DataFrame :=
  MkDataFrame ["A"; "B"; "C"]
    [ {[ "A" := CNum 1; "B" := CNum 2; "C" := CNum 3 ]};
      {[ "A" := CNum 4; "B" := CNum 5; "C" := CNum 6 ]} ].

Definition over_A (policy : Remainder) : ColumnTransformer :=
  MkColumnTransformer
    [("keep", MkEstimator "sklearn.preprocessing.FunctionTransformer" ∅, ["A"])]
    policy.

(** A world in which an object of an earlier run is on the heap. *)
Definition busy_world : World :=
  MkWorld ["work"] disk {[ 7%nat := MkPipelineObj pipeline None [] ]} [].

(** The world once the pipeline object has been constructed. *)
Definition built_world : World :=
  MkWorld ["work"] disk {[ 0%nat := MkPipelineObj pipeline None [] ]} [].

(** A world with nothing on disk. *)
Definition bare_world : World := MkWorld ["work"] (MkFS ∅ ∅ ∅ ∅) ∅ [].

(** The configuration with absolute paths. *)
Definition cfg_absolute : TrainConfig :=
  MkTrainConfig
    (MkDataConfig (MkPath true ["work"; "data"; "train.csv"])
                  (MkPath true ["work"; "data"; "test.csv"]) 10 "y")
    (transformers cfg) (cls_config cfg) (cross_val_config cfg)
    (MkPath true ["work"; "out"; "metric.json"])
    (MkPath true ["work"; "model.pkl"]).

(** The configuration with a second transformer of an unknown class and a
    third one whose parameters are rejected. *)
Definition unknown_spec : TransformSpec :=
  MkTransformSpec "scale" "no.such.Transformer" ∅ ["noise"].

Definition cfg_unknown_transformer : TrainConfig :=
  MkTrainConfig (data_config cfg)
                (transformers cfg ++
                 [unknown_spec;
                  MkTransformSpec "bad" "sklearn.preprocessing.FunctionTransformer"
                                  {[ "classname" := VNone ]} ["x"]])
                (cls_config cfg) (cross_val_config cfg)
                (output_metric cfg) (model_path cfg).

(** The configuration with no transformer at all. *)
Definition cfg_no_transformer : TrainConfig :=
  MkTrainConfig (data_config cfg) [] (cls_config cfg) (cross_val_config cfg)
                (output_metric cfg) (model_path cfg).

Definition pipeline_no_transformer : Pipeline :=
  MkPipeline
    [("feature_transform", StepColumns (MkColumnTransformer [] Drop));
     ("cls",
      StepEstimator (MkEstimator "sklearn.linear_model.LogisticRegression"
                                 {[ "C" := VInt 1 ]}))].

End Sample.

(** * Properties *)

(** ** Exceptions and comprehensions *)

Lemma bind_Ok {A B} (m : Outcome A) (f : A → Outcome B) (b : B) :
  m ≫= f = Ok b ↔ ∃ a, m = Ok a ∧ f a = Ok b.
Proof.
  destruct m as [a|e]; simpl; split.
  - intros Hf. exists a. split; [reflexivity | exact Hf].
  - intros (a' & Ha & Hf). injection Ha as ->. exact Hf.
  - discriminate.
  - intros (a' & Ha & _). discriminate.
Qed.

Lemma traverse_Ok {A B} (f : A → Outcome B) (l : list A) (ys : list B) :
  traverse f l = Ok ys ↔ Forall2 (λ x y, f x = Ok y) l ys.
Proof.
  revert ys. induction l as [|x l IH]; intros ys; simpl.
  - split.
    + intros [= <-]. constructor.
    + intros Hall. inversion Hall. reflexivity.
  - destruct (f x) as [y|e] eqn:Hx.
    + destruct (traverse f l) as [ys'|e] eqn:Hl.
      * split.
        -- intros [= <-]. constructor; [exact Hx | by apply IH].
        -- intros Hall. inversion Hall as [|? y' ? ys'' Hy Hrest]; subst.
           apply IH in Hrest. congruence.
      * split; [discriminate |].
        intros Hall. inversion Hall as [|? y' ? ys'' Hy Hrest]; subst.
        apply IH in Hrest. discriminate.
    + split; [discriminate |].
      intros Hall. inversion Hall; subst. congruence.
Qed.

Lemma traverse_ext {A B} (f g : A → Outcome B) (l : list A) :
  (∀ x, x ∈ l → f x = g x) → traverse f l = traverse g l.
Proof.
  induction l as [|x l IH]; intros Hfg; simpl; [reflexivity |].
  rewrite (Hfg x) by apply list_elem_of_here.
  rewrite IH; [reflexivity |].
  intros z Hz. apply Hfg. by apply list_elem_of_further.
Qed.

Section BuildFacts.
Context `{Collaborators}.

Lemma instantiate_Ok (name : string) (kw : gmap string Value) (e : Estimator) :
  instantiate name kw = Ok e → est_class e = name ∧ est_kwargs e = kw.
Proof.
  unfold instantiate.
  destruct (class_known name); [|discriminate].
  destruct (kwargs_accepted name kw); [|discriminate].
  intros [= <-]. split; reflexivity.
Qed.

(** What [build_pipeline] returns, spelled out. *)
Lemma build_pipeline_Ok (cfg : TrainConfig) (p : Pipeline) :
  build_pipeline cfg = Ok p ↔
  ∃ entries name cls,
    traverse transformer_entry (transformers cfg) = Ok entries ∧
    cls_config cfg !! "classname" = Some (VStr name) ∧
    instantiate name (delete "classname" (cls_config cfg)) = Ok cls ∧
    p = MkPipeline [("feature_transform",
                     StepColumns (MkColumnTransformer entries Drop));
                    ("cls", StepEstimator cls)].
Proof.
  unfold build_pipeline, cls_params, cls_classname.
  destruct (traverse transformer_entry (transformers cfg)) as [entries|e]; simpl.
  - destruct (cls_config cfg !! "classname") as [[s| | | |]|]; simpl;
      try (split; [discriminate | intros (? & ? & ? & ? & ? & ?); congruence]).
    destruct (instantiate s (delete "classname" (cls_config cfg))) as [cls|e] eqn:Hc;
      simpl.
    + split.
      * intros [= <-]. exists entries, s, cls. done.
      * intros (en & name & cls' & [= <-] & [= <-] & Hc' & ->). congruence.
    + split; [discriminate |].
      intros (en & name & cls' & _ & [= <-] & Hc' & _). congruence.
  - split; [discriminate |]. intros (? & ? & ? & ? & _). discriminate.
Qed.

(** The build succeeds as soon as every configured class can be located
    and takes its arguments. *)
Lemma build_pipeline_succeeds (cfg : TrainConfig) (name : string) :
  Forall (λ t, is_ok (instantiate (classname t) (params t)) = true)
         (transformers cfg) →
  cls_config cfg !! "classname" = Some (VStr name) →
  is_ok (instantiate name (delete "classname" (cls_config cfg))) = true →
  is_ok (build_pipeline cfg) = true.
Proof.
  intros Hts Hname Hcls.
  assert (∃ entries, traverse transformer_entry (transformers cfg) = Ok entries)
    as [entries Hen].
  { induction Hts as [|t ts Ht _ IH]; simpl; [by eexists |].
    destruct IH as [en IH]. unfold transformer_entry at 1.
    destruct (instantiate (classname t) (params t)); [|discriminate].
    simpl. rewrite IH. by eexists. }
  destruct (instantiate name _) as [cls|] eqn:Hc; [|discriminate].
  assert (build_pipeline cfg = Ok (MkPipeline
            [("feature_transform", StepColumns (MkColumnTransformer entries Drop));
             ("cls", StepEstimator cls)])) as ->; [|reflexivity].
  apply build_pipeline_Ok. by exists entries, name, cls.
Qed.

(** C3. The pipeline that [train] assembles has exactly two top-level
    stages, the column transformer under the name "feature_transform"
    first and the classifier under the name "cls" second; the column
    transformer has one entry per configured transform, and its n-th entry
    is the n-th configured transform: its stage name, the instance of its
    class name constructed with its parameters, and its columns. *)
Theorem build_pipeline_stage_order (cfg : TrainConfig) (p : Pipeline) :
  build_pipeline cfg = Ok p →
  ∃ ct cls,
    steps p = [("feature_transform", StepColumns ct); ("cls", StepEstimator cls)] ∧
    length (ct_transformers ct) = length (transformers cfg) ∧
    ∀ n t, transformers cfg !! n = Some t →
      ∃ e, ct_transformers ct !! n = Some (stage_name t, e, columns t) ∧
           instantiate (classname t) (params t) = Ok e ∧
           est_class e = classname t ∧ est_kwargs e = params t.
Proof.
  intros Hb. apply build_pipeline_Ok in Hb as (entries & name & cls & Hen & _ & _ & ->).
  exists (MkColumnTransformer entries Drop), cls. simpl.
  apply traverse_Ok in Hen.
  split; [reflexivity |]. split.
  - symmetry. by eapply Forall2_length.
  - intros n t Hn.
    destruct (Forall2_lookup_l _ _ _ _ _ Hen Hn) as (entry & Hentry & Hmk).
    unfold transformer_entry in Hmk. apply bind_Ok in Hmk as (e & He & [= <-]).
    exists e. split; [exact Hentry |]. split; [exact He |].
    by apply instantiate_Ok.
Qed.

(** C7. The classifier stage is the instance of the class that
    [cls_config.classname] names, constructed with the entries of
    [cls_config] other than "classname": the key "classname" is not among
    the keyword arguments, every other key is, with its value. *)
Theorem classifier_built_without_classname (cfg : TrainConfig) (p : Pipeline) :
  build_pipeline cfg = Ok p →
  ∃ name cls,
    steps p !! 1%nat = Some ("cls", StepEstimator cls) ∧
    cls_config cfg !! "classname" = Some (VStr name) ∧
    cls_params cfg = Ok (est_kwargs cls) ∧
    instantiate name (est_kwargs cls) = Ok cls ∧
    est_class cls = name ∧
    est_kwargs cls !! "classname" = None ∧
    ∀ k, k ≠ "classname" → est_kwargs cls !! k = cls_config cfg !! k.
Proof.
  intros Hb. apply build_pipeline_Ok in Hb as (entries & name & cls & _ & Hn & Hc & ->).
  destruct (instantiate_Ok _ _ _ Hc) as [Hclass Hkw].
  exists name, cls. rewrite Hkw.
  repeat split; try done.
  - unfold cls_params. by rewrite Hn.
  - apply lookup_delete_eq.
  - intros k Hk. by apply lookup_delete_ne.
Qed.

End BuildFacts.

(** ** Columns no transformer was given *)

Lemma agree_on_weaken (cols cols' : list string) (X X' : DataFrame) :
  cols' ⊆ cols → agree_on cols X X' → agree_on cols' X X'.
Proof.
  intros Hsub [Hc Hr]. split.
  - intros c Hin. apply Hc, Hsub, Hin.
  - eapply Forall2_impl; [exact Hr |].
    intros r r' Hrr c Hin. apply Hrr, Hsub, Hin.
Qed.

Lemma agree_on_length (cols : list string) (X X' : DataFrame) :
  agree_on cols X X' → length (df_rows X) = length (df_rows X').
Proof. intros [_ Hr]. by eapply Forall2_length. Qed.

Lemma select_columns_agree (cols : list string) (X X' : DataFrame) :
  agree_on cols X X' → select_columns cols X = select_columns cols X'.
Proof.
  intros [Hc Hr]. unfold select_columns.
  assert (forallb (λ c, bool_decide (c ∈ df_columns X)) cols
          = forallb (λ c, bool_decide (c ∈ df_columns X')) cols) as ->.
  { clear Hr. induction cols as [|c cols IH]; simpl; [reflexivity |].
    rewrite (bool_decide_ext _ _ (Hc c (list_elem_of_here _ _))).
    rewrite IH; [reflexivity |].
    intros c' Hin. apply Hc. by apply list_elem_of_further. }
  destruct (forallb _ cols); [|reflexivity].
  f_equal. induction Hr as [|r r' rs rs' Hrr _ IH]; simpl; [reflexivity |].
  f_equal; [|exact IH].
  apply map_ext_in. intros c Hin. unfold cell_at.
  rewrite Hrr; [reflexivity |]. by apply list_elem_of_In.
Qed.

Section Columns.
Context `{Collaborators}.

Lemma entry_columns_referenced (ct : ColumnTransformer)
    (name : string) (e : Estimator) (cols : list string) :
  (name, e, cols) ∈ ct_transformers ct → cols ⊆ referenced_columns ct.
Proof.
  intros Hin c Hc. unfold referenced_columns.
  induction (ct_transformers ct) as [|entry l IH]; [by apply elem_of_nil in Hin |].
  simpl. apply elem_of_app. apply elem_of_cons in Hin as [<- | Hin].
  - by left.
  - right. by apply IH.
Qed.

Lemma ct_fit_transform_agree (ct : ColumnTransformer) (X X' : DataFrame) (y : list Z) :
  remainder ct = Drop →
  agree_on (referenced_columns ct) X X' →
  ct_fit_transform ct X y = ct_fit_transform ct X' y.
Proof.
  intros Hdrop Hag. unfold ct_fit_transform, remainder_block.
  rewrite Hdrop, (agree_on_length _ _ _ Hag).
  rewrite (traverse_ext (fit_transform_entry X y) (fit_transform_entry X' y));
    [reflexivity |].
  intros [[name e] cols] Hin. unfold fit_transform_entry.
  rewrite (select_columns_agree cols X X'); [reflexivity |].
  eapply agree_on_weaken; [|exact Hag]. by eapply entry_columns_referenced.
Qed.

Lemma ct_transform_agree (ct : ColumnTransformer) (sts : list Learned)
    (X X' : DataFrame) :
  remainder ct = Drop →
  agree_on (referenced_columns ct) X X' →
  ct_transform ct sts X = ct_transform ct sts X'.
Proof.
  intros Hdrop Hag. unfold ct_transform, remainder_block.
  rewrite Hdrop, (agree_on_length _ _ _ Hag).
  rewrite (traverse_ext (transform_entry X) (transform_entry X'));
    [reflexivity |].
  intros [[[name e] cols] s] Hin. unfold transform_entry.
  rewrite (select_columns_agree cols X X'); [reflexivity |].
  eapply agree_on_weaken; [|exact Hag].
  eapply entry_columns_referenced. by eapply elem_of_zip_l.
Qed.

Lemma built_columns (cfg : TrainConfig) (entries : list (string * Estimator * list string)) :
  traverse transformer_entry (transformers cfg) = Ok entries →
  map snd entries = map columns (transformers cfg).
Proof.
  intros Hen. apply traverse_Ok in Hen.
  induction Hen as [|t entry ts entries' Ht _ IH]; simpl; [reflexivity |].
  unfold transformer_entry in Ht. apply bind_Ok in Ht as (e & _ & [= <-]).
  simpl. by rewrite IH.
Qed.

(** C4. The feature-transform stage of the assembled pipeline has the
    remainder policy [Drop], and what it produces depends on the input
    only through the columns some TransformSpec lists: two datasets that
    agree on those columns, however they differ in columns, values or
    presence of anything else, give the same transformed feature matrix,
    at fit time and at transform time, and so the same fitted pipeline and
    the same predictions.  No unlisted column reaches the output. *)
Theorem unlisted_columns_dropped (cfg : TrainConfig) (p : Pipeline)
    (X X' : DataFrame) (y : list Z) :
  build_pipeline cfg = Ok p →
  agree_on (concat (map columns (transformers cfg))) X X' →
  ∃ ct, steps p !! 0%nat = Some ("feature_transform", StepColumns ct) ∧
        remainder ct = Drop ∧
        remainder_block ct X = Ok [] ∧
        referenced_columns ct = concat (map columns (transformers cfg)) ∧
        ct_fit_transform ct X y = ct_fit_transform ct X' y ∧
        (∀ sts, ct_transform ct sts X = ct_transform ct sts X') ∧
        pipeline_fit p X y = pipeline_fit p X' y ∧
        (∀ f, pipeline_predict_proba p f X = pipeline_predict_proba p f X').
Proof.
  intros Hb Hag.
  apply build_pipeline_Ok in Hb as (entries & name & cls & Hen & _ & _ & ->).
  set (ct := MkColumnTransformer entries Drop).
  assert (referenced_columns ct = concat (map columns (transformers cfg))) as Href.
  { unfold referenced_columns. simpl. by rewrite (built_columns cfg entries). }
  rewrite <- Href in Hag.
  exists ct. repeat split; try done.
  - by apply ct_fit_transform_agree.
  - intros sts. by apply ct_transform_agree.
  - unfold pipeline_fit. simpl. fold ct.
    by rewrite (ct_fit_transform_agree ct X X' y).
  - intros f. unfold pipeline_predict_proba. simpl. fold ct.
    by rewrite (ct_transform_agree ct (ct_state f) X X').
Qed.

End Columns.

(** ** The range of the metric *)

Lemma pair_credit_bounds (p n : Q) : (0 ≤ pair_credit p n ≤ 2)%Z.
Proof. unfold pair_credit. destruct (Qcompare p n); lia. Qed.

Lemma row_credit_bounds (neg : list Q) (p : Q) :
  (0 ≤ row_credit neg p ≤ 2 * Z.of_nat (length neg))%Z.
Proof.
  unfold row_credit. induction neg as [|n neg IH]; simpl foldr; simpl length.
  - lia.
  - pose proof (pair_credit_bounds p n). lia.
Qed.

Lemma concordance_bounds (pos neg : list Q) :
  (0 ≤ concordance pos neg
     ≤ 2 * Z.of_nat (length pos) * Z.of_nat (length neg))%Z.
Proof.
  unfold concordance. induction pos as [|p pos IH]; simpl foldr; simpl length.
  - lia.
  - pose proof (row_credit_bounds neg p). nia.
Qed.

Lemma roc_auc_range (pos neg : list Q) :
  (0 <= roc_auc pos neg)%Q ∧ (roc_auc pos neg <= 1)%Q.
Proof.
  unfold roc_auc, Qle. simpl Qnum. simpl Qden.
  pose proof (concordance_bounds pos neg) as [Hlo Hhi].
  set (d := (2 * Z.of_nat (length pos) * Z.of_nat (length neg))%Z) in *.
  split; [lia |].
  destruct (Z_lt_le_dec 0 d) as [Hd|Hd].
  - rewrite Z2Pos.id by exact Hd. lia.
  - pose proof (Pos2Z.is_pos (Z.to_pos d)). lia.
Qed.

(** The scores that [roc_auc_score] accepts are the finite ones. *)
Lemma as_number_cases (xs : list Float) :
  match traverse as_number xs with
  | Ok qs => xs = map FNum qs ∧ Forall (λ x, is_finite x = true) xs
  | Raise e => e = DataError ∧ ¬ Forall (λ x, is_finite x = true) xs
  end.
Proof.
  induction xs as [|x xs IH]; simpl.
  - by split.
  - destruct x as [q| |neg]; simpl.
    + destruct (traverse as_number xs) as [qs|e].
      * destruct IH as [-> Hall]. split; [reflexivity |]. by constructor.
      * destruct IH as [-> Hno]. split; [reflexivity |].
        intros Hall. apply Hno. by inversion Hall.
    + split; [reflexivity |]. intros Hall. by inversion Hall.
    + split; [reflexivity |]. intros Hall. by inversion Hall.
Qed.

(** [roc_auc_score] returns a value exactly when the true labels take
    exactly two distinct values and there is one finite score per label,
    and that value lies in [0, 1]; in every other case it raises a
    DataError. *)
Lemma roc_auc_score_cases (y_true : list Z) (y_score : list Float) :
  match roc_auc_score y_true y_score with
  | Ok v =>
      length (remove_dups y_true) = 2%nat ∧ length y_true = length y_score ∧
      Forall (λ x, is_finite x = true) y_score ∧
      (0 <= v)%Q ∧ (v <= 1)%Q
  | Raise e =>
      e = DataError ∧
      (length (remove_dups y_true) ≠ 2%nat ∨ length y_true ≠ length y_score ∨
       ¬ Forall (λ x, is_finite x = true) y_score)
  end.
Proof.
  unfold roc_auc_score. pose proof (as_number_cases y_score) as Hnum.
  destruct (traverse as_number y_score) as [qs|e].
  - destruct Hnum as [-> Hfin]. rewrite length_map. case_bool_decide as Hlen.
    + destruct (remove_dups y_true) as [|a [|b [|c l]]]; simpl length;
        try (split; [reflexivity | left; lia]).
      pose proof (roc_auc_range
                    (scores_where (Z.eqb (Z.max a b)) y_true qs)
                    (scores_where (λ l, negb (Z.eqb (Z.max a b) l)) y_true qs))
        as [Hlo Hhi].
      repeat split; assumption.
    + split; [reflexivity | by right; left].
  - destruct Hnum as [-> Hno]. split; [reflexivity | by right; right].
Qed.

(** ** The file system *)

Section Files.
Context `{Collaborators}.

Lemma is_dir_nonroot (above : list string) (c : string) (f : FS) :
  is_dir (above ++ [c]) f = bool_decide (above ++ [c] ∈ dirs f).
Proof.
  unfold is_dir. apply bool_decide_ext. split; [|by right].
  intros [Hnil | Hin]; [|exact Hin]. by destruct above.
Qed.

(** A successful [makedirs] leaves the files alone, keeps the directories
    there were, and leaves every directory on the way in place; none of
    them was a file. *)
Lemma makedirs_from_Ok (below above : list string) (f f' : FS) :
  makedirs_from above below f = (f', Ok ()) →
  files f' = files f ∧ locked f' = locked f ∧ dirs f ⊆ dirs f' ∧
  ∀ k, (0 < k ≤ length below)%nat →
       above ++ take k below ∈ dirs f' ∧ files f !! (above ++ take k below) = None.
Proof.
  revert above f. induction below as [|c below IH]; intros above f; simpl.
  - intros [= <-]. repeat split; try done. simpl in *; lia. simpl in *; lia.
  - case_bool_decide as Hfile; [discriminate |].
    apply eq_None_not_Some in Hfile.
    rewrite is_dir_nonroot. case_bool_decide as Hdir.
    + intros Hrun. apply IH in Hrun as (Hf & Hl & Hd & Hk).
      repeat split; try done.
      * destruct k as [|k]; [lia |]. simpl.
        destruct k as [|k].
        -- rewrite take_0. apply Hd, Hdir.
        -- rewrite cons_middle, app_assoc. apply Hk. simpl in *; lia.
      * destruct k as [|k]; [lia |]. simpl.
        destruct k as [|k]; [by rewrite take_0 |].
        rewrite cons_middle, app_assoc. apply Hk. simpl in *; lia.
    + case_bool_decide as Hlock; [discriminate |].
      intros Hrun. apply IH in Hrun as (Hf & Hl & Hd & Hk). simpl in *.
      repeat split; try done.
      * intros d Hd'. apply Hd, elem_of_union. by right.
      * destruct k as [|k]; [lia |]. simpl.
        destruct k as [|k].
        -- rewrite take_0. apply Hd, elem_of_union. left. by apply elem_of_singleton.
        -- rewrite cons_middle, app_assoc. apply Hk. lia.
      * destruct k as [|k]; [lia |]. simpl.
        destruct k as [|k]; [by rewrite take_0 |].
        rewrite cons_middle, app_assoc. apply Hk. lia.
Qed.

(** Where the directories are in place already, [makedirs] changes
    nothing. *)
Lemma makedirs_from_present (below above : list string) (f : FS) :
  (∀ k, (0 < k ≤ length below)%nat →
        above ++ take k below ∈ dirs f ∧ files f !! (above ++ take k below) = None) →
  makedirs_from above below f = (f, Ok ()).
Proof.
  revert above. induction below as [|c below IH]; intros above Hk; simpl.
  - reflexivity.
  - destruct (Hk 1%nat) as [Hd Hf]; [simpl; lia |]. simpl in Hd, Hf.
    rewrite take_0 in Hd, Hf.
    rewrite Hf. rewrite bool_decide_eq_false_2 by (intros [? ?]; discriminate).
    rewrite is_dir_nonroot, bool_decide_eq_true_2 by exact Hd.
    apply IH. intros k Hkk.
    specialize (Hk (S k)). simpl in Hk.
    rewrite cons_middle, app_assoc in Hk. apply Hk. lia.
Qed.

Lemma take_removelast {A} (l : list A) (k : nat) :
  (k < length l)%nat → take k (removelast l) = take k l.
Proof.
  intros Hk. rewrite removelast_firstn_len.
  change (firstn (Init.Nat.pred (length l)) l) with (take (Init.Nat.pred (length l)) l).
  rewrite take_take. f_equal. lia.
Qed.

Lemma length_removelast {A} (l : list A) :
  length (removelast l) = Init.Nat.pred (length l).
Proof.
  rewrite removelast_firstn_len.
  change (firstn (Init.Nat.pred (length l)) l) with (take (Init.Nat.pred (length l)) l).
  rewrite length_take. lia.
Qed.

Lemma write_file_Ok (path : list string) (content : File) (f f' : FS) :
  write_file path content f = (f', Ok ()) →
  is_dir path f = false ∧ is_dir (dirname path) f = true ∧ (path ∉ locked f) ∧
  (path ∉ failing f) ∧
  f' = MkFS (dirs f) (<[path := content]> (files f)) (locked f) (failing f).
Proof.
  unfold write_file.
  destruct (is_dir path f); [discriminate |].
  destruct (is_dir (dirname path) f); [|discriminate]. simpl.
  case_bool_decide as Hlock; [discriminate |].
  case_bool_decide as Hfail; [discriminate |].
  intros [= <-]. done.
Qed.

Lemma save_metric_Ok (path : list string) (score : Q) (w w1 : World) :
  save_metric path score w = (w1, Ok ()) ↔
  ∃ f1 f2,
    makedirs (dirname path) (fs w) = (f1, Ok ()) ∧
    write_file path (TextFile (metric_text score)) f1 = (f2, Ok ()) ∧
    w1 = MkWorld (cwd w) f2 (heap w)
           (trace w ++ [(Makedirs (dirname path), true)]
                    ++ [(WriteText path (metric_text score), true)]).
Proof.
  unfold save_metric, mbind, M_bind, fs_call, record.
  destruct (makedirs (dirname path) (fs w)) as [f1 [[]|e]] eqn:Hmk; simpl.
  - destruct (write_file path (TextFile (metric_text score)) f1)
      as [f2 [[]|e]] eqn:Hwr; simpl.
    + rewrite <- app_assoc. split.
      * intros [= <-]. by exists f1, f2.
      * intros (g1 & g2 & [= <-] & Hwr' & ->).
        rewrite Hwr in Hwr'. by injection Hwr' as <-.
    + split; [discriminate |]. intros (g1 & g2 & [= <-] & Hwr' & _).
      rewrite Hwr in Hwr'. discriminate.
  - split; [discriminate |]. intros (g1 & g2 & [=] & _).
Qed.

(** C9. Saving the metric is a pure overwrite.  When it succeeds, the file
    at the metric path holds the text of the single record
    [{"ROC AUC": <float>}] and nothing of what the path held before, no
    other file has changed, and every directory above the path exists
    (those that were missing have been created); saving the same value again
    to the same path succeeds and leaves the file system exactly as the
    first save left it. *)
Theorem save_metric_idempotent (path : list string) (score : Q) (w w1 : World) :
  save_metric path score w = (w1, Ok ()) →
  files (fs w1) = <[path := TextFile (metric_text score)]> (files (fs w)) ∧
  metric_text score
    = ("{" +:+ dquote +:+ "ROC AUC" +:+ dquote +:+ ": " +:+ float_repr score +:+ "}") ∧
  (∀ k, (0 < k < length path)%nat → take k path ∈ dirs (fs w1)) ∧
  dirs (fs w) ⊆ dirs (fs w1) ∧
  ∃ w2, save_metric path score w1 = (w2, Ok ()) ∧ fs w2 = fs w1.
Proof.
  intros Hsave. apply save_metric_Ok in Hsave as (f1 & f2 & Hmk & Hwr & ->).
  simpl. unfold makedirs, dirname in Hmk.
  apply makedirs_from_Ok in Hmk as (Hf & Hl & Hd & Hk).
  apply write_file_Ok in Hwr as (Hnd & Hpd & Hnl & Hnf & ->). simpl.
  assert (∀ k, (0 < k < length path)%nat →
               take k path ∈ dirs f1 ∧ files (fs w) !! take k path = None) as Hpre.
  { intros k Hkk. rewrite <- (take_removelast path k) by lia.
    apply (Hk k). unfold dirname. rewrite length_removelast. lia. }
  split; [by rewrite Hf |].
  split; [reflexivity |].
  split; [intros k Hkk; by apply Hpre |].
  split; [exact Hd |].
  set (f2 := MkFS (dirs f1) (<[path := TextFile (metric_text score)]> (files f1))
                  (locked f1) (failing f1)).
  eexists. split.
  - apply save_metric_Ok. exists f2, f2. simpl. split; [|split; [|reflexivity]].
    + apply makedirs_from_present. intros k Hkk.
      unfold dirname in *. rewrite length_removelast in Hkk. simpl.
      rewrite take_removelast by lia.
      destruct (Hpre k) as [Hin Hnone]; [lia |].
      split; [exact Hin |].
      rewrite lookup_insert_ne, Hf; [exact Hnone |].
      intros Heq. apply (f_equal length) in Heq.
      rewrite length_take in Heq. lia.
    + unfold write_file.
      change (is_dir path f2) with (is_dir path f1).
      change (is_dir (dirname path) f2) with (is_dir (dirname path) f1).
      rewrite Hnd, Hpd. simpl.
      rewrite bool_decide_eq_false_2 by exact Hnl.
      rewrite bool_decide_eq_false_2 by exact Hnf.
      unfold f2. simpl. by rewrite insert_insert_eq.
  - reflexivity.
Qed.

End Files.

(** ** Runs of the script *)

Section RunFacts.
Context `{Collaborators}.

Lemma allocate_inv (p : Pipeline) (h h' : gmap nat PipelineObj) (r : Outcome nat) :
  allocate p h = (h', r) →
  r = Ok (fresh (dom h)) ∧ h !! fresh (dom h) = None ∧
  h' = <[fresh (dom h) := MkPipelineObj p None []]> h.
Proof.
  unfold allocate. intros [= <- <-]. repeat split.
  apply not_elem_of_dom, is_fresh.
Qed.

(** One step of a run: case analysis on the next call of [train]. *)
Ltac run_step :=
  match goal with
  | |- context [match build_pipeline ?a1 with _ => _ end] =>
      destruct (build_pipeline a1) as [?p|?e] eqn:?Hbuild
  | |- context [allocate ?a1 ?a2] =>
      destruct (allocate a1 a2) as [?h [?id|?e]] eqn:?Halloc;
      [|exfalso;
        match goal with
        | Ha : allocate _ _ = (_, Raise _) |- _ =>
            apply allocate_inv in Ha as [Ha _]; discriminate Ha
        end]
  | |- context [load_csv ?a1 ?a2] =>
      destruct (load_csv a1 a2) as [?f [?data|?e]] eqn:?Hread
  | |- context [clean_data ?a1 ?a2] =>
      destruct (clean_data a1 a2) as [?cleaned|?e] eqn:?Hclean
  | |- context [feature_target_split ?a1 ?a2] =>
      destruct (feature_target_split a1 a2) as [[?X ?y]|?e] eqn:?Hsplit
  | |- context [cross_validate_clones ?a1 ?a2 ?a3 ?a4 ?a5 ?a6] =>
      destruct (cross_validate_clones a1 a2 a3 a4 a5 a6) as [?h [?res|?e]] eqn:?Hcv
  | |- context [fit_in_place ?a1 ?a2 ?a3 ?a4] =>
      destruct (fit_in_place a1 a2 a3 a4) as [?h [[]|?e]] eqn:?Hfit
  | |- context [predict_with ?a1 ?a2 ?a3] =>
      destruct (predict_with a1 a2 a3) as [?h [?proba|?e]] eqn:?Hpred
  | |- context [column_1 ?a1] =>
      destruct (column_1 a1) as [?scores|?e] eqn:?Hcol
  | |- context [roc_auc_score ?a1 ?a2] =>
      destruct (roc_auc_score a1 a2) as [?score|?e] eqn:?Hauc
  | |- context [makedirs ?a1 ?a2] =>
      destruct (makedirs a1 a2) as [?f [[]|?e]] eqn:?Hmkdir
  | |- context [write_file ?a1 ?a2 ?a3] =>
      destruct (write_file a1 a2 a3) as [?f [[]|?e]] eqn:?Hwrite
  | |- context [write_pickle ?a1 ?a2 ?a3] =>
      destruct (write_pickle a1 a2 a3) as [?f [[]|?e]] eqn:?Hdump
  end; cbn [fs heap cwd trace is_ok fst snd].

Ltac run_unfold :=
  unfold main, train, cross_val, prepare_date, save_metric, dump_pickle,
    new_pipeline, read_csv, cross_validate, fit, predict_proba, info,
    original_path, lift, call, fs_call, heap_call, record,
    mbind, M_bind, mret, M_ret.

Lemma new_entries_app (w : World) (c : list string) (f : FS)
    (h : gmap nat PipelineObj) (l : list Entry) :
  new_entries w (MkWorld c f h (trace w ++ l)) = l.
Proof. unfold new_entries. simpl. apply drop_app_length. Qed.

Lemma new_entries_nil (w : World) : new_entries w w = [].
Proof. unfold new_entries. apply drop_all. Qed.

(** Every case of a run, with the entries it added spelled out. *)
Ltac run_cases :=
  run_unfold; repeat run_step;
  rewrite <- ?app_assoc; cbn [app];
  rewrite ?new_entries_app, ?new_entries_nil.

Lemma load_csv_inv (path : list string) (f f' : FS) (r : Outcome DataFrame) :
  load_csv path f = (f', r) →
  f' = f ∧ ∀ d, r = Ok d → files f !! path = Some (CsvFile d).
Proof.
  unfold load_csv. destruct (files f !! path) as [[d| | |]|]; intros [= <- <-].
  all: split; [reflexivity |]; intros d' [=]. by subst.
Qed.

(** The reads leave the files as they were. *)
Ltac reads_inv :=
  repeat match goal with
         | Hr : load_csv _ _ = (_, _) |- _ =>
             apply load_csv_inv in Hr as [-> Hr];
             try specialize (Hr _ eq_refl)
         end.

(** The cases of a membership in a list that is spelled out. *)
Ltac entry_cases Hin :=
  repeat (apply elem_of_cons in Hin as [Hin | Hin];
          [simplify_eq |]);
  [.. | by apply elem_of_nil in Hin].

Ltac solve_prepared :=
  unfold prepared;
  match goal with
  | Hc : clean_data ?d _ = Ok _ |- context [clean_data ?d _] => rewrite Hc
  end; simpl; eassumption.

(** *** Objects on the heap *)

Lemma fresh_not_present (h : gmap nat PipelineObj) (est : nat) :
  is_Some (h !! est) → fresh (dom h) ≠ est.
Proof.
  intros Hest Heq. apply elem_of_dom in Hest.
  rewrite <- Heq in Hest. by apply is_fresh in Hest.
Qed.

(** A fold works on a clone: the objects there were stay as they are. *)
Lemma run_fold_frame (p : Pipeline)
    (scorers : list (list (list Float) → list Z → Outcome Q)) (fd : Fold)
    (h : gmap nat PipelineObj) (est : nat) :
  is_Some (h !! est) → (run_fold p scorers fd h).1 !! est = h !! est.
Proof.
  intros Hest. unfold run_fold.
  destruct (fold_train fd) as [Xtr ytr], (fold_test fd) as [Xte yte].
  destruct (pipeline_fit p Xtr ytr); simpl;
    by rewrite lookup_insert_ne by by apply fresh_not_present.
Qed.

Lemma run_folds_frame (p : Pipeline)
    (scorers : list (list (list Float) → list Z → Outcome Q)) (folds : list Fold)
    (h : gmap nat PipelineObj) (est : nat) :
  is_Some (h !! est) → (run_folds p scorers folds h).1 !! est = h !! est.
Proof.
  revert h. induction folds as [|fd folds IH]; intros h Hest; simpl; [reflexivity |].
  pose proof (run_fold_frame p scorers fd h est Hest) as Hfd.
  destruct (run_fold p scorers fd h) as [h1 res]; simpl in Hfd.
  assert (is_Some (h1 !! est)) as Hest1 by by rewrite Hfd.
  specialize (IH h1 Hest1).
  destruct (run_folds p scorers folds h1) as [h2 rest]; simpl in *; congruence.
Qed.

(** [cross_validate] does not touch the estimator it is given, nor any
    other object there was, whatever its outcome. *)
Lemma cross_validate_clones_frame (est : nat) (X : DataFrame) (y : list Z)
    (scoring : list string) (k : nat) (h : gmap nat PipelineObj) (other : nat) :
  is_Some (h !! other) →
  (cross_validate_clones est X y scoring k h).1 !! other = h !! other.
Proof.
  intros Hother. unfold cross_validate_clones.
  destruct (h !! est) as [o|]; [|reflexivity].
  destruct (check_scoring scoring) as [scorers|e]; [|reflexivity].
  destruct (cv_split k X y) as [folds|e]; [|reflexivity].
  pose proof (run_folds_frame (obj_pipeline o) scorers folds h other Hother) as Hfr.
  destruct (run_folds (obj_pipeline o) scorers folds h) as [h' results].
  simpl in Hfr. by destruct (forallb _ results).
Qed.

Lemma fit_in_place_inv (est : nat) (X : DataFrame) (y : list Z)
    (h h' : gmap nat PipelineObj) :
  fit_in_place est X y h = (h', Ok ()) →
  ∃ o f, h !! est = Some o ∧ pipeline_fit (obj_pipeline o) X y = Ok f ∧
         h' = <[est := MkPipelineObj (obj_pipeline o) (Some f)
                                     (obj_fits o ++ [(X, y)])]> h.
Proof.
  unfold fit_in_place. destruct (h !! est) as [o|]; [|discriminate].
  destruct (pipeline_fit (obj_pipeline o) X y) as [f|e] eqn:Hf; [|discriminate].
  intros [= <-]. by exists o, f.
Qed.

Lemma predict_with_inv (est : nat) (X : DataFrame) (h h' : gmap nat PipelineObj)
    (r : Outcome (list (list Float))) :
  predict_with est X h = (h', r) →
  h' = h ∧ ∀ proba, r = Ok proba →
    ∃ p f fits, h !! est = Some (MkPipelineObj p (Some f) fits) ∧
                pipeline_predict_proba p f X = Ok proba.
Proof.
  unfold predict_with. destruct (h !! est) as [[p [f|] fits]|]; intros [= <- <-].
  all: split; [reflexivity |]; intros proba Hp; try discriminate.
  by exists p, f, fits.
Qed.

Lemma column_1_Ok {A} (a : list (list A)) (col : list A) :
  column_1 a = Ok col ↔ Forall2 (λ row q, row !! 1%nat = Some q) a col.
Proof.
  unfold column_1. rewrite traverse_Ok.
  split; intros Hall; (eapply Forall2_impl; [exact Hall |]);
    intros row q; simpl; destruct (row !! 1%nat); congruence.
Qed.

(** The pipeline object between its construction and the evaluation: it
    comes out of the cross-validation as it went in, and the fit on the
    training split is the first and only one made on it. *)
Lemma pipeline_object_history (p : Pipeline) (h h0 h1 h2 : gmap nat PipelineObj)
    (id : nat) (Xcv Xtr : DataFrame) (ycv ytr : list Z)
    (scoring : list string) (k : nat) (r : Outcome ScoreFrame) :
  allocate p h = (h0, Ok id) →
  cross_validate_clones id Xcv ycv scoring k h0 = (h1, r) →
  fit_in_place id Xtr ytr h1 = (h2, Ok ()) →
  h1 !! id = Some (MkPipelineObj p None []) ∧
  ∃ f, pipeline_fit p Xtr ytr = Ok f ∧
       h2 !! id = Some (MkPipelineObj p (Some f) [(Xtr, ytr)]).
Proof.
  intros Ha Hcv Hfit.
  apply allocate_inv in Ha as ([= <-] & _ & ->).
  assert (h1 !! id = Some (MkPipelineObj p None [])) as Hid.
  { pose proof (cross_validate_clones_frame id Xcv ycv scoring k
                  (<[id := MkPipelineObj p None []]> h) id) as Hfr.
    rewrite Hcv in Hfr. simpl in Hfr.
    rewrite Hfr; rewrite lookup_insert_eq; [reflexivity | by eexists]. }
  split; [exact Hid |].
  apply fit_in_place_inv in Hfit as (o & f & Ho & Hf & ->).
  rewrite Hid in Ho. injection Ho as <-. simpl in *.
  exists f. split; [exact Hf |]. by rewrite lookup_insert_eq.
Qed.


(** C1. In every run, the data [cross_validate] is given are the features
    and target that [prepare_date] makes of the row-wise concatenation of
    the train frame and the test frame, each read from its configured
    path; [fit] is given what [prepare_date] makes of the train frame
    alone, and the predictions and the metric are taken on what it makes of
    the test frame alone.  The concatenation goes nowhere else. *)
Theorem cross_validation_on_union (cfg : TrainConfig) (w : World)
    (e : Event) (ok : bool) :
  (e, ok) ∈ new_entries w (train cfg w).1 →
  let train_path := resolve (cwd w) (path_to_train (data_config cfg)) in
  let test_path := resolve (cwd w) (path_to_test (data_config cfg)) in
  match e with
  | CrossValidate _ X y scoring k =>
      ∃ train_data test_data,
        files (fs w) !! train_path = Some (CsvFile train_data) ∧
        files (fs w) !! test_path = Some (CsvFile test_data) ∧
        prepared cfg (df_append train_data test_data) = Ok (X, y) ∧
        df_rows (df_append train_data test_data)
          = df_rows train_data ++ df_rows test_data ∧
        scoring = scores (cross_val_config cfg) ∧ k = cv (cross_val_config cfg)
  | Fit _ X y =>
      ∃ train_data,
        files (fs w) !! train_path = Some (CsvFile train_data) ∧
        prepared cfg train_data = Ok (X, y)
  | PredictProba _ X =>
      ∃ test_data y,
        files (fs w) !! test_path = Some (CsvFile test_data) ∧
        prepared cfg test_data = Ok (X, y)
  | RocAucScore y _ =>
      ∃ test_data X,
        files (fs w) !! test_path = Some (CsvFile test_data) ∧
        prepared cfg test_data = Ok (X, y)
  | CleanData data _ =>
      ∃ train_data test_data,
        files (fs w) !! train_path = Some (CsvFile train_data) ∧
        files (fs w) !! test_path = Some (CsvFile test_data) ∧
        (data = df_append train_data test_data ∨ data = train_data ∨
         data = test_data)
  | _ => True
  end.
Proof.
  cbv zeta. run_cases; reads_inv; intros Hin; entry_cases Hin.
  all: try exact I.
  all: try (eexists _, _; split; [eassumption |]; split; [eassumption |]; tauto).
  all: try (eexists _, _; split; [eassumption |]; split; [eassumption |];
            split; [solve_prepared |]; done).
  all: try (eexists; split; [eassumption |]; solve_prepared).
  all: try (eexists _, _; split; [eassumption |]; solve_prepared).
Qed.

Ltac in_list := apply list_elem_of_In; cbn [In]; tauto.

(** *** Shapes *)

Lemma hstack_length (n : nat) (blocks : list Table) (t : Table) :
  hstack n blocks = Ok t → length t = n.
Proof.
  unfold hstack.
  match goal with
  | |- context [forallb ?f blocks] => destruct (forallb f blocks) eqn:Hall
  end; intros Ht; [|discriminate Ht].
  injection Ht as <-. induction blocks as [|b blocks IH]; simpl.
  - apply length_replicate.
  - simpl in Hall. apply andb_prop in Hall as [Hb Hall].
    apply bool_decide_eq_true_1 in Hb.
    rewrite length_zip_with, Hb, (IH Hall). lia.
Qed.

Lemma ct_transform_length (ct : ColumnTransformer) (sts : list Learned)
    (X : DataFrame) (Xt : Table) :
  ct_transform ct sts X = Ok Xt → length Xt = length (df_rows X).
Proof.
  unfold ct_transform. case_bool_decide; [|discriminate].
  destruct (traverse _ _) as [outs|]; [|discriminate]. simpl.
  destruct (remainder_block ct X) as [rest|]; [|discriminate]. simpl.
  apply hstack_length.
Qed.

(** The amended C5.  An evaluation returns a value exactly when the test
    target has exactly two distinct classes and there is one finite score
    per label of it; the value then lies in [0, 1].  In every other case
    (fewer than two classes, more than two, a score that is NaN or
    infinite, scores that are not one per label) no value is returned: the
    evaluation raises a DataError.  In a run, the evaluation is that
    function on the test target and the scores: its value is the one the run
    goes on with, and if it raises the run ends with the DataError, nothing
    having been written. *)
Theorem evaluation_range (y_true : list Z) (y_score : list Float) :
  (is_ok (roc_auc_score y_true y_score) = true ↔
   length (remove_dups y_true) = 2%nat ∧ length y_true = length y_score ∧
   Forall (λ x, is_finite x = true) y_score) ∧
  (∀ v, roc_auc_score y_true y_score = Ok v → (0 <= v)%Q ∧ (v <= 1)%Q) ∧
  (∀ e, roc_auc_score y_true y_score = Raise e → e = DataError) ∧
  (length (remove_dups y_true) ≠ 2%nat →
   roc_auc_score y_true y_score = Raise DataError) ∧
  ∀ (cfg : TrainConfig) (w : World) (ok : bool),
    (RocAucScore y_true y_score, ok) ∈ new_entries w (train cfg w).1 →
    ok = is_ok (roc_auc_score y_true y_score) ∧
    (∀ v, roc_auc_score y_true y_score = Ok v →
          (Log (LogScore v), true) ∈ new_entries w (train cfg w).1) ∧
    (ok = false →
     (train cfg w).2 = Raise DataError ∧ fs (train cfg w).1 = fs w).
Proof.
  pose proof (roc_auc_score_cases y_true y_score) as Hcases.
  split; [|split; [|split; [|split]]].
  - destruct (roc_auc_score y_true y_score) as [v|e]; simpl.
    + destruct Hcases as (Hc & Hl & Hf & _). by split.
    + destruct Hcases as (_ & Hno). split; [discriminate |].
      intros (Hc & Hl & Hf). by destruct Hno as [Hno | [Hno | Hno]].
  - intros v Hv. rewrite Hv in Hcases. tauto.
  - intros e He. rewrite He in Hcases. tauto.
  - intros Hne. destruct (roc_auc_score y_true y_score) as [v|e].
    + destruct Hcases as (Hc & _). done.
    + by destruct Hcases as (-> & _).
  - intros cfg w ok. run_cases; reads_inv; intros Hin; entry_cases Hin.
    all: try match goal with
             | H1 : roc_auc_score ?y ?s = _, H2 : roc_auc_score ?y ?s = _ |- _ =>
                 rewrite H1 in H2; simplify_eq
             end.
    all: cbn [is_ok].
    all: split; [reflexivity |].
    all: split; [intros v' [= <-]; in_list |].
    all: try (intros [=]; fail).
    all: intros _; split; [|reflexivity].
    all: destruct Hcases as (-> & _); reflexivity.
Qed.

Lemma cross_val_frame (cfg : TrainConfig) (w : World) (est : nat)
    (data : DataFrame) (other : nat) :
  is_Some (heap w !! other) →
  heap (cross_val est data cfg w).1 !! other = heap w !! other.
Proof.
  intros Hother. run_unfold.
  destruct (clean_data _ _) as [cleaned|e]; cbn [fs heap cwd trace is_ok fst snd];
    [|reflexivity].
  destruct (feature_target_split _ _) as [[X y]|e];
    cbn [fs heap cwd trace is_ok fst snd]; [|reflexivity].
  pose proof (cross_validate_clones_frame est X y (scores (cross_val_config cfg))
                (cv (cross_val_config cfg)) (heap w) other Hother) as Hfr.
  destruct (cross_validate_clones _ _ _ _ _ _) as [h [res|e]];
    cbn [fs heap cwd trace is_ok fst snd]; exact Hfr.
Qed.


(** Facts about membership in lists that are spelled out. *)
Ltac decide_entries :=
  repeat match goal with
         | |- _ ∧ _ => split
         | |- ¬ _ => intro
         | |- _ → _ => intro
         | |- ∀ _, _ => intro
         | Hd : _ ∨ _ |- _ => destruct Hd
         | Hin : _ ∈ _ |- _ =>
             repeat (apply elem_of_cons in Hin as [Hin | Hin];
                     [try discriminate Hin; simplify_eq |]);
             [.. | by apply elem_of_nil in Hin]
         end;
  first [done | repeat first [apply list_elem_of_here | apply list_elem_of_further]].

(** C6. In every run the metric is [roc_auc_score] of the true labels of
    the test split and of column 1, the second column, of the class
    probabilities that the fitted pipeline predicts for the features of the
    test split: the i-th score is entry 1 of the i-th row.  Nothing in the
    configuration selects the column.  The value logged and written to the
    metric file is the value of that call. *)
Theorem evaluator_scores_second_column (cfg : TrainConfig) (w : World)
    (e : Event) (ok : bool) :
  (e, ok) ∈ new_entries w (train cfg w).1 →
  match e with
  | RocAucScore y_true y_score =>
      ∃ train_data test_data Xtr ytr Xte p f proba,
        files (fs w) !! resolve (cwd w) (path_to_train (data_config cfg))
          = Some (CsvFile train_data) ∧
        files (fs w) !! resolve (cwd w) (path_to_test (data_config cfg))
          = Some (CsvFile test_data) ∧
        prepared cfg train_data = Ok (Xtr, ytr) ∧
        prepared cfg test_data = Ok (Xte, y_true) ∧
        build_pipeline cfg = Ok p ∧
        pipeline_fit p Xtr ytr = Ok f ∧
        pipeline_predict_proba p f Xte = Ok proba ∧
        column_1 proba = Ok y_score ∧
        Forall2 (λ row q, row !! 1%nat = Some q) proba y_score ∧
        ok = is_ok (roc_auc_score y_true y_score)
  | Log (LogScore v) =>
      ∃ y_true y_score,
        (RocAucScore y_true y_score, true) ∈ new_entries w (train cfg w).1 ∧
        roc_auc_score y_true y_score = Ok v
  | WriteText path text =>
      ∃ y_true y_score v,
        (RocAucScore y_true y_score, true) ∈ new_entries w (train cfg w).1 ∧
        roc_auc_score y_true y_score = Ok v ∧
        path = resolve (cwd w) (output_metric cfg) ∧
        text = metric_text v
  | _ => True
  end.
Proof.
  run_cases; reads_inv; intros Hin; entry_cases Hin.
  all: try exact I.
  all: try (eexists _, _; split; [in_list | eassumption]).
  all: try (eexists _, _, _; split; [in_list |]; split; [eassumption |]; done).
  all: match goal with
       | Ha : allocate _ _ = _, Hc : cross_validate_clones _ _ _ _ _ _ = _,
         Hf : fit_in_place _ _ _ _ = _, Hp : predict_with _ _ _ = _ |- _ =>
           destruct (pipeline_object_history _ _ _ _ _ _ _ _ _ _ _ _ _ Ha Hc Hf)
             as (_ & f & Hpf & Hobj);
           apply predict_with_inv in Hp as [-> Hp];
           destruct (Hp _ eq_refl) as (p' & f' & fits & Hlook & Hpp);
           rewrite Hobj in Hlook; injection Hlook as <- <- <-
       end.
  all: eexists _, _, _, _, _, _, _, _.
  all: split; [eassumption |]; split; [eassumption |].
  all: split; [solve_prepared |]; split; [solve_prepared |].
  all: split; [reflexivity |]; split; [eassumption |]; split; [eassumption |].
  all: split; [eassumption |]; split; [by apply column_1_Ok |].
  all: match goal with Ha : roc_auc_score _ _ = _ |- _ => by rewrite Ha end.
Qed.

(** C10. The cross-validation leaves the pipeline object it is given as it
    found it.  In a run that succeeds, the object constructed from the
    configuration is the one handed to [cross_validate], the one fitted
    and the one pickled; exactly one [fit] call is made, on the training
    split; at the end the object has been fitted that once and no more, what
    it has learned is what [Pipeline.fit] learns from the training split,
    and the artifact at the model path is that object. *)
Theorem pipeline_fitted_once_on_train (cfg : TrainConfig) (w w' : World) :
  train cfg w = (w', Ok ()) →
  ∃ p train_data X y f,
    let id := fresh (dom (heap w)) in
    let fitted := MkPipelineObj p (Some f) [(X, y)] in
    let new := new_entries w w' in
    build_pipeline cfg = Ok p ∧
    files (fs w) !! resolve (cwd w) (path_to_train (data_config cfg))
      = Some (CsvFile train_data) ∧
    prepared cfg train_data = Ok (X, y) ∧
    pipeline_fit p X y = Ok f ∧
    heap w' !! id = Some fitted ∧
    files (fs w') !! resolve (cwd w) (model_path cfg) = Some (PickleFile fitted) ∧
    filter (λ e : Entry, kind e.1 = KFit) new = [(Fit id X y, true)] ∧
    (∀ est Xc yc sc k ok, (CrossValidate est Xc yc sc k, ok) ∈ new → est = id) ∧
    (∀ est path ok, (DumpPickle est path, ok) ∈ new → est = id) ∧
    (∀ w0 est data o, heap w0 !! est = Some o →
                      heap (cross_val est data cfg w0).1 !! est = Some o).
Proof.
  intros Hrun.
  match goal with |- ?C => set (claim := C) end.
  revert Hrun. run_cases; reads_inv; intros Hrun; try discriminate.
  subst claim. injection Hrun as <-. cbn [fs heap cwd trace].
  rewrite new_entries_app.
  destruct (pipeline_object_history _ _ _ _ _ _ _ _ _ _ _ _ _ Halloc Hcv Hfit)
    as (_ & f & Hpf & Hobj).
  apply predict_with_inv in Hpred as [-> _].
  rewrite Hobj in Hdump. cbn [write_pickle] in Hdump.
  apply write_file_Ok in Hdump as (_ & _ & _ & _ & ->).
  apply allocate_inv in Halloc as ([= ->] & _ & _).
  eexists p, _, _, _, f. cbv zeta.
  split; [reflexivity |]. split; [eassumption |]. split; [solve_prepared |].
  split; [exact Hpf |]. split; [exact Hobj |].
  split; [cbn [files fs]; by rewrite lookup_insert_eq |].
  split; [reflexivity |].
  split; [intros est Xc yc sc k ok Hin; entry_cases Hin; reflexivity |].
  split; [intros est path ok Hin; entry_cases Hin; reflexivity |].
  intros w0 est d o Ho. rewrite cross_val_frame; [exact Ho | by eexists].
Qed.

(** The amended C2.  The metric is written first and the model second, one
    after the other.  A failure while creating the directories of the
    metric file or while writing it ends the run: no attempt is made to
    write the model artifact, and the exit status is not zero.  The model
    write is attempted only once the metric file has been written.  Any
    call that fails, the model write among them, makes the exit status
    non-zero. *)
Theorem metric_failure_skips_model_write (cfg : TrainConfig) (w : World) :
  let done := outcomes (new_entries w (train cfg w).1) in
  ((KMakedirs, false) ∈ done ∨ (KWriteText, false) ∈ done →
   (∀ ok, (KDumpPickle, ok) ∉ done) ∧ (main cfg w).2 ≠ 0%Z) ∧
  (∀ ok, (KDumpPickle, ok) ∈ done →
         (KMakedirs, true) ∈ done ∧ (KWriteText, true) ∈ done) ∧
  (∀ k, (k, false) ∈ done → (main cfg w).2 ≠ 0%Z).
Proof.
  cbv zeta. run_cases. all: cbn [outcomes map kind fst snd is_ok].
  all: decide_entries.
Qed.

(** ** What a run leaves alone *)

(** Whatever its outcome, [makedirs] changes no file and no permission,
    removes no directory, and creates directories on the way down only. *)
Lemma makedirs_from_frame (below above : list string) (f f' : FS) (r : Outcome unit) :
  makedirs_from above below f = (f', r) →
  files f' = files f ∧ locked f' = locked f ∧ failing f' = failing f ∧
  dirs f ⊆ dirs f' ∧
  (∀ d, d ∈ dirs f' → d ∈ dirs f ∨ ∃ k, d = above ++ take k below) ∧
  (∀ e, r = Raise e → e = PersistenceError).
Proof.
  revert above f. induction below as [|c below IH]; intros above f; simpl.
  - intros [= <- <-]. repeat split; try done. intros d Hd. by left.
  - case_bool_decide as Hfile.
    { intros [= <- <-]. repeat split; try done.
      - intros d Hd. by left.
      - by intros e [= <-]. }
    destruct (is_dir (above ++ [c]) f).
    + intros Hrun. apply IH in Hrun as (Hf & Hl & Hfl & Hd & Hnew & He).
      repeat split; try done.
      intros d Hin. destruct (Hnew d Hin) as [Hold | [k ->]]; [by left |].
      right. exists (S k). simpl. by rewrite <- app_assoc.
    + case_bool_decide as Hlock.
      { intros [= <- <-]. repeat split; try done.
        - intros d Hd. by left.
        - by intros e [= <-]. }
      intros Hrun. apply IH in Hrun as (Hf & Hl & Hfl & Hd & Hnew & He). simpl in *.
      repeat split; try done.
      * intros d Hin. apply Hd, elem_of_union. by right.
      * intros d Hin. destruct (Hnew d Hin) as [Hold | [k ->]].
        -- apply elem_of_union in Hold as [Hold | Hold]; [|by left].
           apply elem_of_singleton in Hold as ->.
           right. exists 1%nat. simpl. by rewrite take_0.
        -- right. exists (S k). simpl. by rewrite <- app_assoc.
Qed.

(** A write that fails has either changed nothing (the file could not be
    opened) or has emptied the file (it was opened, and the write itself
    failed). *)
Lemma write_file_frame (path : list string) (content : File) (f f' : FS)
    (r : Outcome unit) :
  write_file path content f = (f', r) →
  dirs f' = dirs f ∧ locked f' = locked f ∧ failing f' = failing f ∧
  match r with
  | Ok _ => files f' = <[path := content]> (files f)
  | Raise e =>
      e = PersistenceError ∧
      (files f' = files f ∨
       path ∈ failing f ∧ files f' = <[path := Truncated]> (files f))
  end.
Proof.
  unfold write_file.
  destruct (is_dir path f); [intros [= <- <-]; by repeat split; try left |].
  destruct (negb (is_dir (dirname path) f));
    [intros [= <- <-]; by repeat split; try left |].
  case_bool_decide; [intros [= <- <-]; by repeat split; try left |].
  case_bool_decide as Hfail; intros [= <- <-]; repeat split. by right.
Qed.

Lemma write_pickle_frame (o : option PipelineObj) (path : list string) (f f' : FS)
    (r : Outcome unit) :
  write_pickle o path f = (f', r) →
  dirs f' = dirs f ∧ locked f' = locked f ∧ failing f' = failing f ∧
  match r with
  | Ok _ => ∃ obj, o = Some obj ∧ files f' = <[path := PickleFile obj]> (files f)
  | Raise e =>
      e = PersistenceError ∧
      (files f' = files f ∨
       path ∈ failing f ∧ files f' = <[path := Truncated]> (files f))
  end.
Proof.
  destruct o as [obj|]; simpl.
  - intros Hw. apply write_file_frame in Hw. destruct Hw as (Hd & Hl & Hfl & Hr).
    split; [exact Hd |]. split; [exact Hl |]. split; [exact Hfl |].
    destruct r; [by exists obj | exact Hr].
  - intros [= <- <-]. repeat split. by left.
Qed.

(** *** Plain paths *)

Lemma plain_take (p : list string) (k : nat) : plain p → plain (take k p).
Proof. apply Forall_take. Qed.

Lemma plain_dirname (p : list string) : plain p → plain (dirname p).
Proof.
  intros Hp. unfold dirname. rewrite removelast_firstn_len.
  by apply plain_take.
Qed.

(** A file system stays one of plain paths when the directories added are
    prefixes of a plain path and the files touched have plain paths. *)
Lemma fs_plain_frame (f f' : FS) (base : list string) (touched : list (list string)) :
  fs_plain f → plain base → Forall plain touched →
  (∀ d, d ∈ dirs f' → d ∈ dirs f ∨ ∃ k, d = take k base) →
  (∀ p, p ∉ touched → files f' !! p = files f !! p) →
  fs_plain f'.
Proof.
  intros [Hdirs Hfiles] Hbase Htouched Hnew Hsame. split.
  - intros d Hd. destruct (Hnew d Hd) as [Hold | [k ->]].
    + by apply Hdirs.
    + by apply plain_take.
  - intros p Hp. destruct (decide (p ∈ touched)) as [Hin | Hout].
    + rewrite Forall_forall in Htouched. by apply Htouched.
    + apply Hfiles. by rewrite <- Hsame.
Qed.

(** What saving the metric does to a world, whatever the outcome. *)
Lemma save_metric_frame (path : list string) (score : Q) (w : World) :
  let w' := (save_metric path score w).1 in
  let r := (save_metric path score w).2 in
  cwd w' = cwd w ∧ heap w' = heap w ∧
  locked (fs w') = locked (fs w) ∧ failing (fs w') = failing (fs w) ∧
  dirs (fs w) ⊆ dirs (fs w') ∧
  (∀ d, d ∈ dirs (fs w') → d ∈ dirs (fs w) ∨ ∃ k, d = take k (dirname path)) ∧
  (∀ p, p ≠ path → files (fs w') !! p = files (fs w) !! p) ∧
  (∀ e, r = Raise e →
        e = PersistenceError ∧
        (files (fs w') = files (fs w) ∨
         path ∈ failing (fs w) ∧
         files (fs w') = <[path := Truncated]> (files (fs w)))).
Proof.
  cbv zeta. unfold save_metric, mbind, M_bind, fs_call, record.
  destruct (makedirs (dirname path) (fs w)) as [f1 [[]|e1]] eqn:Hmk;
    cbn [fst snd cwd heap fs].
  all: unfold makedirs in Hmk.
  all: apply makedirs_from_frame in Hmk.
  all: destruct Hmk as (Hf & Hl & Hfl & Hd & Hnew & He);
       cbn [app] in Hnew.
  - destruct (write_file path (TextFile (metric_text score)) f1)
      as [f2 [[]|e2]] eqn:Hwr; cbn [fst snd cwd heap fs].
    all: apply write_file_frame in Hwr; destruct Hwr as (Hd2 & Hl2 & Hfl2 & Hr).
    + rewrite Hd2, Hl2, Hfl2, Hr, Hf. repeat split; try done.
      intros p Hp. by rewrite lookup_insert_ne.
    + destruct Hr as [-> Hr]. rewrite Hd2, Hl2, Hfl2.
      destruct Hr as [-> | [Hin ->]]; rewrite Hf; repeat split; try done.
      all: try congruence.
      all: try (by left).
      * intros p Hp. by rewrite lookup_insert_ne.
      * right. split; [by rewrite <- Hfl | reflexivity].
  - rewrite Hf. repeat split; try done.
    all: try (by left).
    by apply He.
Qed.

(** Where the directories can be made and the file can be opened, a write
    that fails leaves the file truncated. *)
Lemma save_metric_truncates (path : list string) (score : Q) (w : World) :
  is_ok (makedirs (dirname path) (fs w)).2 = true →
  is_dir path (fs w) = false → path ∉ locked (fs w) → path ∈ failing (fs w) →
  (save_metric path score w).2 = Raise PersistenceError ∧
  files (fs (save_metric path score w).1) = <[path := Truncated]> (files (fs w)).
Proof.
  intros Hmade Hnodir Hopen Hfail.
  unfold save_metric, mbind, M_bind, fs_call, record.
  destruct (makedirs (dirname path) (fs w)) as [f1 [[]|e1]] eqn:Hmk;
    [|discriminate]. cbn [fst snd cwd heap fs].
  unfold makedirs in Hmk.
  pose proof (makedirs_from_Ok _ _ _ _ Hmk) as (_ & _ & _ & Hk).
  apply makedirs_from_frame in Hmk.
  destruct Hmk as (Hf & Hl & Hfl & Hd & Hnew & _). cbn [app] in Hnew, Hk.
  apply bool_decide_eq_false in Hnodir.
  assert (path ≠ []) as Hne by (intros ->; apply Hnodir; by left).
  assert (is_dir path f1 = false) as Hnd.
  { apply bool_decide_eq_false. intros [Hnil | Hin]; [done |].
    destruct (Hnew path Hin) as [Hold | [k Hk']].
    - apply Hnodir. by right.
    - apply (f_equal length) in Hk'. rewrite length_take in Hk'.
      unfold dirname in Hk'. rewrite length_removelast in Hk'.
      destruct path; [done |]. simpl in Hk'. lia. }
  assert (is_dir (dirname path) f1 = true) as Hparent.
  { apply bool_decide_eq_true. destruct (dirname path) as [|c rest] eqn:Hdn.
    - by left.
    - right. destruct (Hk (length (c :: rest))) as [Hin _]; [simpl; lia |].
      by rewrite firstn_all in Hin. }
  unfold write_file. rewrite Hnd, Hparent. cbn [negb].
  rewrite bool_decide_eq_false_2 by by rewrite Hl.
  rewrite bool_decide_eq_true_2 by by rewrite Hfl.
  cbn [fst snd cwd heap fs files]. by rewrite Hf.
Qed.

(** X1 (lines 95-99).  On a file system of plain paths, saving the metric
    to a plain path leaves a file system of plain paths, touches nothing
    but the file system, changes no permission, removes no directory,
    creates directories above the metric file only, and changes no file
    other than the metric file.  If it fails, it fails with a
    PersistenceError, and either no file has changed (the directories could
    not be made, or the file not opened) or the metric file is left
    truncated: the file was opened, which empties it, and the write failed,
    so that a metric written earlier is lost.  Where writes to the path do
    not fail, a failed save has changed no file; where they fail, and the
    directories can be made and the file opened, the save fails and leaves
    the file truncated. *)
Theorem save_metric_failure_effects (path : list string) (score : Q) (w : World) :
  plain path → fs_plain (fs w) →
  fs_plain (fs (save_metric path score w).1) ∧
  cwd (save_metric path score w).1 = cwd w ∧
  heap (save_metric path score w).1 = heap w ∧
  locked (fs (save_metric path score w).1) = locked (fs w) ∧
  dirs (fs w) ⊆ dirs (fs (save_metric path score w).1) ∧
  (∀ d, d ∈ dirs (fs (save_metric path score w).1) →
        d ∈ dirs (fs w) ∨ ∃ k, d = take k (dirname path)) ∧
  (∀ p, p ≠ path →
        files (fs (save_metric path score w).1) !! p = files (fs w) !! p) ∧
  (∀ e, (save_metric path score w).2 = Raise e →
        e = PersistenceError ∧
        (files (fs (save_metric path score w).1) = files (fs w) ∨
         path ∈ failing (fs w) ∧
         files (fs (save_metric path score w).1)
           = <[path := Truncated]> (files (fs w)))) ∧
  (path ∉ failing (fs w) → is_ok (save_metric path score w).2 = false →
   files (fs (save_metric path score w).1) = files (fs w)) ∧
  (is_ok (makedirs (dirname path) (fs w)).2 = true →
   is_dir path (fs w) = false → path ∉ locked (fs w) → path ∈ failing (fs w) →
   (save_metric path score w).2 = Raise PersistenceError ∧
   files (fs (save_metric path score w).1)
     = <[path := Truncated]> (files (fs w))).
Proof.
  intros Hpath Hplain.
  destruct (save_metric_frame path score w)
    as (Hcwd & Hheap & Hlock & Hfail & Hdirs & Hnew & Hsame & Herr).
  split.
  { apply (fs_plain_frame (fs w) _ (dirname path) [path]); try done.
    - by apply plain_dirname.
    - by constructor.
    - intros p Hp. apply Hsame. intros ->. apply Hp, list_elem_of_here. }
  do 6 (split; [done |]). split; [exact Herr |].
  split; [|apply save_metric_truncates].
  intros Hnf Hno. destruct (save_metric path score w).2 as [[]|e] eqn:Hr;
    [discriminate |].
  destruct (Herr e eq_refl) as (_ & [Hkeep | [Hin _]]); done.
Qed.

(** The effects of the persistence calls of a case, as equations. *)
Ltac writes_inv :=
  repeat match goal with
         | Hm : makedirs _ _ = (_, _) |- _ =>
             unfold makedirs in Hm; apply makedirs_from_frame in Hm;
             cbn [app] in Hm; destruct Hm as (? & ? & ? & ? & ? & ?)
         | Hw : write_file _ _ _ = (_, Ok _) |- _ =>
             apply write_file_frame in Hw; destruct Hw as (? & ? & ? & ?)
         | Hw : write_file _ _ _ = (_, Raise _) |- _ =>
             apply write_file_frame in Hw;
             destruct Hw as (? & ? & ? & -> & [? | [_ ?]])
         | Hw : write_pickle _ _ _ = (_, Ok _) |- _ =>
             apply write_pickle_frame in Hw; destruct Hw as (? & ? & ? & ? & ? & ?)
         | Hw : write_pickle _ _ _ = (_, Raise _) |- _ =>
             apply write_pickle_frame in Hw;
             destruct Hw as (? & ? & ? & -> & [? | [_ ?]])
         end.

(** What a run does to the file system, whatever the outcome. *)
Lemma train_frame (cfg : TrainConfig) (w : World) :
  let w' := (train cfg w).1 in
  let metric := resolve (cwd w) (output_metric cfg) in
  let model := resolve (cwd w) (model_path cfg) in
  cwd w' = cwd w ∧ locked (fs w') = locked (fs w) ∧
  failing (fs w') = failing (fs w) ∧
  dirs (fs w) ⊆ dirs (fs w') ∧
  (∀ d, d ∈ dirs (fs w') → d ∈ dirs (fs w) ∨ ∃ k, d = take k (dirname metric)) ∧
  (∀ p, p ≠ metric → p ≠ model → files (fs w') !! p = files (fs w) !! p) ∧
  (∀ p, is_Some (files (fs w) !! p) → is_Some (files (fs w') !! p)) ∧
  (is_ok (train cfg w).2 = true →
   ∃ v o, files (fs w')
          = <[model := PickleFile o]>
              (<[metric := TextFile (metric_text v)]> (files (fs w)))).
Proof.
  cbv zeta. run_cases; reads_inv; writes_inv.
  all: cbn [fst snd fs cwd is_ok].
  all: repeat match goal with Heq : _ = _ |- _ => rewrite Heq end.
  all: repeat split; try done.
  all: try (intros p0 Hp1 Hp2; by rewrite ?lookup_insert_ne by done).
  all: try (intros p0 Hp; rewrite ?lookup_insert; repeat case_decide; by eauto).
  all: intros _; by eexists _, _.
Qed.

(** X2 (lines 60-105).  On a file system of plain paths, a run whose metric
    and model paths are plain leaves a file system of plain paths and,
    whatever its outcome, leaves the working directory and the permissions
    as they were, removes no directory and no file, creates directories
    above the metric file only, and changes no file other than the one at
    the metric path and the one at the model path: a file at any other
    path, an input file included, is as it was.  When the run succeeds,
    the files on disk are those there were, with the metric record at the
    metric path and the pickled pipeline at the model path. *)
Theorem run_writes_metric_and_model_only (cfg : TrainConfig) (w : World) :
  plain (resolve (cwd w) (output_metric cfg)) →
  plain (resolve (cwd w) (model_path cfg)) →
  fs_plain (fs w) →
  fs_plain (fs (train cfg w).1) ∧
  cwd (train cfg w).1 = cwd w ∧
  locked (fs (train cfg w).1) = locked (fs w) ∧
  dirs (fs w) ⊆ dirs (fs (train cfg w).1) ∧
  (∀ d, d ∈ dirs (fs (train cfg w).1) →
        d ∈ dirs (fs w) ∨
        ∃ k, d = take k (dirname (resolve (cwd w) (output_metric cfg)))) ∧
  (∀ p, p ≠ resolve (cwd w) (output_metric cfg) →
        p ≠ resolve (cwd w) (model_path cfg) →
        files (fs (train cfg w).1) !! p = files (fs w) !! p) ∧
  (∀ p, is_Some (files (fs w) !! p) → is_Some (files (fs (train cfg w).1) !! p)) ∧
  (is_ok (train cfg w).2 = true →
   ∃ v o, files (fs (train cfg w).1)
          = <[resolve (cwd w) (model_path cfg) := PickleFile o]>
              (<[resolve (cwd w) (output_metric cfg) := TextFile (metric_text v)]>
                 (files (fs w)))).
Proof.
  intros Hmetric Hmodel Hplain.
  destruct (train_frame cfg w)
    as (Hcwd & Hlock & Hfail & Hdirs & Hnew & Hsame & Hkeep & Hok).
  split.
  { apply (fs_plain_frame (fs w) _
             (dirname (resolve (cwd w) (output_metric cfg)))
             [resolve (cwd w) (output_metric cfg);
              resolve (cwd w) (model_path cfg)]); try done.
    - by apply plain_dirname.
    - by repeat constructor.
    - intros p Hp. apply Hsame; intros ->; apply Hp.
      + apply list_elem_of_here.
      + apply list_elem_of_further, list_elem_of_here. }
  done.
Qed.

(** X3 (lines 46-105).  Nothing is written before there is a metric: in a run
    whose evaluation did not return a value (because an earlier stage
    failed, or the evaluation itself), the file system is exactly as it was
    before the run, and the run fails. *)
Theorem no_metric_no_output (cfg : TrainConfig) (w : World) :
  (KRocAucScore, true) ∉ outcomes (new_entries w (train cfg w).1) →
  fs (train cfg w).1 = fs w ∧ is_ok (train cfg w).2 = false.
Proof.
  run_cases; reads_inv; cbn [outcomes map kind fst snd fs is_ok]; intros Hno.
  all: try (split; reflexivity).
  all: exfalso; apply Hno; in_list.
Qed.

Lemma fit_in_place_frame (est : nat) (X : DataFrame) (y : list Z)
    (h h' : gmap nat PipelineObj) (r : Outcome unit) (other : nat) :
  fit_in_place est X y h = (h', r) → other ≠ est → h' !! other = h !! other.
Proof.
  unfold fit_in_place. destruct (h !! est) as [o|]; [|by intros [= <- <-]].
  destruct (pipeline_fit (obj_pipeline o) X y); intros [= <- <-] Hne;
    [by rewrite lookup_insert_ne | reflexivity].
Qed.

Lemma cross_validate_clones_keeps (est : nat) (X : DataFrame) (y : list Z)
    (scoring : list string) (k : nat) (h h' : gmap nat PipelineObj)
    (r : Outcome ScoreFrame) (other : nat) (o : PipelineObj) :
  cross_validate_clones est X y scoring k h = (h', r) →
  h !! other = Some o → h' !! other = Some o.
Proof.
  intros Hcv Ho.
  pose proof (cross_validate_clones_frame est X y scoring k h other) as Hfr.
  rewrite Hcv in Hfr. cbn [fst] in Hfr. rewrite Hfr; [exact Ho | by eexists].
Qed.

(** X4 (lines 55-86).  A run works on the pipeline object it constructs and
    on the clones of the cross-validation, all of them new: an object that
    was on the heap before the run is the same after it, whatever the
    outcome, and no [fit], [predict_proba] or pickling of the run is on
    it. *)
Theorem run_keeps_other_objects (cfg : TrainConfig) (w : World)
    (other : nat) (o : PipelineObj) :
  heap w !! other = Some o →
  heap (train cfg w).1 !! other = Some o ∧
  ∀ e ok, (e, ok) ∈ new_entries w (train cfg w).1 →
    match e with
    | CrossValidate est _ _ _ _ | Fit est _ _ | PredictProba est _
    | DumpPickle est _ => est ≠ other
    | _ => True
    end.
Proof.
  intros Hother.
  assert (fresh (dom (heap w)) ≠ other) as Hfresh
    by (apply fresh_not_present; by eexists).
  run_cases.
  all: try match goal with
           | Ha : allocate _ _ = _ |- _ =>
               apply allocate_inv in Ha as ([= ->] & _ & ->)
           end.
  all: try match goal with
           | Hc : cross_validate_clones _ _ _ _ _ _ = _ |- _ =>
               apply (cross_validate_clones_keeps _ _ _ _ _ _ _ _ other o) in Hc;
               [|by rewrite lookup_insert_ne by done]
           end.
  all: try match goal with
           | Hf : fit_in_place _ _ _ _ = _ |- _ =>
               apply (fit_in_place_frame _ _ _ _ _ _ other) in Hf; [|done]
           end.
  all: try match goal with
           | Hp : predict_with _ _ _ = _ |- _ =>
               apply predict_with_inv in Hp as [-> _]
           end.
  all: split; [first [done | by rewrite lookup_insert_ne by done | congruence] |].
  all: intros ev ok Hin; entry_cases Hin; done.
Qed.

(** X5 (lines 60, 63, 90, 101).  The configured paths are joined to the
    original working directory with [os.path.join], which lets an absolute
    path stand alone: when the four paths of the configuration are
    absolute, the working directory has no influence on a run, neither on
    its outcome nor on what it reads, writes, fits and logs. *)
Theorem absolute_paths_ignore_cwd (cfg : TrainConfig) (c1 c2 : list string)
    (f : FS) (h : gmap nat PipelineObj) (t : list Entry) :
  is_abs (path_to_train (data_config cfg)) = true →
  is_abs (path_to_test (data_config cfg)) = true →
  is_abs (output_metric cfg) = true →
  is_abs (model_path cfg) = true →
  let run1 := train cfg (MkWorld c1 f h t) in
  let run2 := train cfg (MkWorld c2 f h t) in
  run1.2 = run2.2 ∧ fs run1.1 = fs run2.1 ∧ heap run1.1 = heap run2.1 ∧
  trace run1.1 = trace run2.1.
Proof.
  intros Htrain Htest Hmetric Hmodel. cbv zeta.
  run_unfold. unfold resolve. rewrite Htrain, Htest, Hmetric, Hmodel.
  cbn [fs heap cwd trace].
  repeat run_step. all: done.
Qed.

(** ** Assembling the pipeline: failures *)

Lemma traverse_first_failure {A B} (f : A → Outcome B) (l : list A)
    (i : nat) (x : A) (e : Error) :
  l !! i = Some x → f x = Raise e →
  (∀ j x', (j < i)%nat → l !! j = Some x' → is_ok (f x') = true) →
  traverse f l = Raise e.
Proof.
  revert i. induction l as [|a l IH]; intros i Hi Hx Hbefore; [done |].
  destruct i as [|i]; simpl in *.
  - injection Hi as ->. by rewrite Hx.
  - specialize (Hbefore 0%nat a (Nat.lt_0_succ i) eq_refl) as Ha.
    destruct (f a) as [b|]; [|discriminate].
    rewrite (IH i Hi Hx); [reflexivity |].
    intros j x' Hj Hx'. apply (Hbefore (S j) x'); [lia | exact Hx'].
Qed.

Lemma traverse_Raise {A B} (f : A → Outcome B) (l : list A) (e : Error) :
  traverse f l = Raise e → ∃ x, x ∈ l ∧ f x = Raise e.
Proof.
  induction l as [|a l IH]; simpl; [discriminate |].
  destruct (f a) as [b|e'] eqn:Ha.
  - destruct (traverse f l) as [bs|e'']; [discriminate |].
    intros [= ->]. destruct (IH eq_refl) as (x & Hx & Hfx).
    exists x. split; [by apply list_elem_of_further | exact Hfx].
  - intros [= ->]. exists a. split; [apply list_elem_of_here | exact Ha].
Qed.

Lemma traverse_not_ok {A B} (f : A → Outcome B) (l : list A) (x : A) :
  x ∈ l → is_ok (f x) = false → is_ok (traverse f l) = false.
Proof.
  intros Hx Hfx. destruct (traverse f l) as [ys|] eqn:Ht; [|reflexivity].
  apply traverse_Ok in Ht. apply list_elem_of_lookup in Hx as [i Hi].
  destruct (Forall2_lookup_l _ _ _ _ _ Ht Hi) as (y & _ & Hy).
  by rewrite Hy in Hfx.
Qed.

Lemma instantiate_is_ok (name : string) (kw : gmap string Value) :
  is_ok (instantiate name kw) = true ↔
  class_known name = true ∧ kwargs_accepted name kw = true.
Proof.
  unfold instantiate.
  destruct (class_known name), (kwargs_accepted name kw); simpl; intuition congruence.
Qed.

Lemma instantiate_Raise (name : string) (kw : gmap string Value) (e : Error) :
  instantiate name kw = Raise e →
  e = ResolutionError ∧ class_known name = false ∨
  e = ConstructionError ∧ class_known name = true ∧ kwargs_accepted name kw = false.
Proof.
  unfold instantiate.
  destruct (class_known name), (kwargs_accepted name kw); intros [= <-]; tauto.
Qed.

(** X6 (lines 48-50).  The transformers are constructed in the order of the
    configuration and the first one that cannot be constructed ends the
    run: the error is that of the earliest failing TransformSpec, a
    ResolutionError if its class name is unknown and a ConstructionError
    if its parameters are rejected, whatever the later specs and the
    classifier configuration are; the run touches nothing, makes no call
    and exits with status 1. *)
Theorem first_failing_transform_is_reported (cfg : TrainConfig) (i : nat)
    (t : TransformSpec) (e : Error) :
  transformers cfg !! i = Some t →
  instantiate (classname t) (params t) = Raise e →
  (∀ j t', (j < i)%nat → transformers cfg !! j = Some t' →
           is_ok (instantiate (classname t') (params t')) = true) →
  build_pipeline cfg = Raise e ∧
  (e = ResolutionError ∧ class_known (classname t) = false ∨
   e = ConstructionError ∧ class_known (classname t) = true ∧
   kwargs_accepted (classname t) (params t) = false) ∧
  ∀ w, train cfg w = (w, Raise e) ∧ (main cfg w).2 = 1%Z.
Proof.
  intros Hi Ht Hbefore.
  assert (build_pipeline cfg = Raise e) as Hbuild.
  { unfold build_pipeline.
    rewrite (traverse_first_failure transformer_entry _ i t e Hi); [reflexivity | |].
    - unfold transformer_entry. by rewrite Ht.
    - intros j t' Hj Ht'. specialize (Hbefore j t' Hj Ht').
      unfold transformer_entry.
      by destruct (instantiate (classname t') (params t')). }
  split; [exact Hbuild |]. split; [by apply instantiate_Raise |].
  intros w. unfold main, train, lift, mbind, M_bind. by rewrite Hbuild.
Qed.

(** X7 (lines 48-58).  The pipeline can be assembled exactly when every
    TransformSpec names a known class that accepts its parameters and
    [cls_config] holds, under the key "classname", the name of a known
    class that accepts the other entries of [cls_config] as keyword
    arguments.  When the assembly fails, it fails with a ResolutionError, a
    ConstructionError or, the key "classname" missing, a
    ConfigValidationError. *)
Theorem build_pipeline_ok_iff (cfg : TrainConfig) :
  (is_ok (build_pipeline cfg) = true ↔
   Forall (λ t, class_known (classname t) = true ∧
                kwargs_accepted (classname t) (params t) = true)
          (transformers cfg) ∧
   ∃ name, cls_config cfg !! "classname" = Some (VStr name) ∧
           class_known name = true ∧
           kwargs_accepted name (delete "classname" (cls_config cfg)) = true) ∧
  (∀ e, build_pipeline cfg = Raise e →
        e = ResolutionError ∨ e = ConstructionError ∨
        e = ConfigValidationError ∧ cls_config cfg !! "classname" = None).
Proof.
  split; [split |].
  - destruct (build_pipeline cfg) as [p|] eqn:Hb; [intros _ | discriminate].
    apply build_pipeline_Ok in Hb as (entries & name & cls & Hen & Hn & Hc & _).
    split.
    + apply traverse_Ok in Hen. apply Forall_forall. intros t Hin.
      apply list_elem_of_lookup in Hin as [i Hi].
      destruct (Forall2_lookup_l _ _ _ _ _ Hen Hi) as (entry & _ & Hentry).
      unfold transformer_entry in Hentry.
      apply bind_Ok in Hentry as (est & Hest & _).
      apply instantiate_is_ok. by rewrite Hest.
    + exists name. split; [exact Hn |]. apply instantiate_is_ok. by rewrite Hc.
  - intros (Hts & name & Hn & Hk & Ha).
    apply (build_pipeline_succeeds cfg name); [|exact Hn | by apply instantiate_is_ok].
    eapply Forall_impl; [exact Hts |]. intros t Ht. by apply instantiate_is_ok.
  - intros e. unfold build_pipeline, cls_params, cls_classname.
    destruct (traverse transformer_entry (transformers cfg)) as [entries|e'] eqn:Hen;
      simpl.
    + destruct (cls_config cfg !! "classname") as [[name| | | |]|]; simpl;
        try (intros [= <-]; tauto).
      destruct (instantiate name _) as [cls|e'] eqn:Hc; simpl; [discriminate |].
      intros [= ->]. apply instantiate_Raise in Hc. tauto.
    + intros [= ->]. apply traverse_Raise in Hen as (t & _ & Ht).
      unfold transformer_entry in Ht.
      destruct (instantiate (classname t) (params t)) as [est|e'] eqn:Hc;
        [discriminate |].
      injection Ht as ->. apply instantiate_Raise in Hc. tauto.
Qed.

Lemma select_columns_missing (cols : list string) (X : DataFrame) (c : string) :
  c ∈ cols → c ∉ df_columns X → select_columns cols X = Raise DataError.
Proof.
  intros Hc Hmiss. unfold select_columns.
  destruct (forallb _ cols) eqn:Hall; [|reflexivity].
  rewrite forallb_forall in Hall. apply list_elem_of_In in Hc.
  specialize (Hall c Hc). by apply bool_decide_eq_true_1 in Hall.
Qed.

(** X8 (lines 48-50).  Assembling the pipeline does not look at any data, and
    so a column name that the data does not have is not noticed then: the
    pipeline is built, and it is fitting it, or predicting with it, on a
    dataset that lacks a column some TransformSpec lists that fails. *)
Theorem unknown_column_fails_at_fit (cfg : TrainConfig) (p : Pipeline)
    (X : DataFrame) (y : list Z) (t : TransformSpec) (c : string) :
  build_pipeline cfg = Ok p →
  t ∈ transformers cfg → c ∈ columns t → c ∉ df_columns X →
  is_ok (pipeline_fit p X y) = false ∧
  ∀ f, is_ok (pipeline_predict_proba p f X) = false.
Proof.
  intros Hb Ht Hc Hmiss.
  apply build_pipeline_Ok in Hb as (entries & name & cls & Hen & _ & _ & ->).
  apply traverse_Ok in Hen.
  apply list_elem_of_lookup in Ht as [i Hi].
  destruct (Forall2_lookup_l _ _ _ _ _ Hen Hi) as (entry & Hentry & Hmk).
  unfold transformer_entry in Hmk. apply bind_Ok in Hmk as (est & _ & [= <-]).
  pose proof (select_columns_missing (columns t) X c Hc Hmiss) as Hsel.
  set (entry := (stage_name t, est, columns t)) in *.
  split.
  - assert (is_ok (traverse (fit_transform_entry X y) entries) = false) as Hfail.
    { apply (traverse_not_ok _ _ entry).
      - apply list_elem_of_lookup. by exists i.
      - unfold fit_transform_entry, entry. by rewrite Hsel. }
    unfold pipeline_fit, ct_fit_transform. simpl.
    by destruct (traverse (fit_transform_entry X y) entries).
  - intros f. unfold pipeline_predict_proba, ct_transform. simpl.
    case_bool_decide as Hlen; [|reflexivity].
    destruct (lookup_lt_is_Some_2 (ct_state f) i) as [s Hs].
    { rewrite Hlen. by eapply lookup_lt_Some. }
    assert (is_ok (traverse (transform_entry X) (zip entries (ct_state f))) = false)
      as Hfail.
    { apply (traverse_not_ok _ _ (entry, s)).
      - apply list_elem_of_lookup. exists i.
        apply lookup_zip_with_Some. by exists entry, s.
      - unfold transform_entry, entry. by rewrite Hsel. }
    by destruct (traverse (transform_entry X) (zip entries (ct_state f))).
Qed.

(** X9 (lines 48-58).  With an empty list of transformers the pipeline is
    still assembled, and since the remainder is dropped nothing of the data
    reaches the classifier: whatever the columns of the dataset, the
    classifier is fitted on, and predicts from, a matrix with one row per
    sample and no column. *)
Theorem no_transformers_no_features (cfg : TrainConfig) (p : Pipeline)
    (X : DataFrame) (y : list Z) :
  transformers cfg = [] → build_pipeline cfg = Ok p →
  ∃ cls,
    steps p = [("feature_transform", StepColumns (MkColumnTransformer [] Drop));
               ("cls", StepEstimator cls)] ∧
    pipeline_fit p X y
      = (s ← est_fit cls (replicate (length (df_rows X)) []) y; Ok (MkFitted [] s)) ∧
    ∀ s, pipeline_predict_proba p (MkFitted [] s) X
         = est_predict_proba cls s (replicate (length (df_rows X)) []).
Proof.
  intros Hnone Hb.
  apply build_pipeline_Ok in Hb as (entries & name & cls & Hen & _ & _ & ->).
  rewrite Hnone in Hen. injection Hen as <-.
  exists cls. split; [reflexivity |]. split; [reflexivity |].
  intros s. reflexivity.
Qed.

(** X10 (line 86).  Taking column 1 of the predicted probabilities needs two
    columns: it succeeds exactly when every row has at least two entries,
    and then yields one score per row; otherwise, a classifier that has
    seen a single class giving one column, it raises and there is no
    score. *)
Theorem column_1_needs_two_columns {A} (a : list (list A)) :
  (is_ok (column_1 a) = true ↔ Forall (λ row, (2 ≤ length row)%nat) a) ∧
  (∀ col, column_1 a = Ok col → length col = length a) ∧
  (∀ e, column_1 a = Raise e → e = DataError).
Proof.
  split; [|split].
  - induction a as [|row a IH]; simpl.
    + split; [constructor | reflexivity].
    + unfold column_1 in *. simpl.
      destruct (row !! 1%nat) as [q|] eqn:Hq.
      * apply lookup_lt_Some in Hq.
        destruct (traverse _ a) as [col|]; simpl in *.
        -- split; [intros _; constructor; [lia | by apply IH] | reflexivity].
        -- split; [discriminate |]. intros Hall. inversion Hall; subst.
           by apply IH.
      * apply lookup_ge_None in Hq. split; [discriminate |].
        intros Hall. inversion Hall; subst. lia.
  - intros col Hcol. apply column_1_Ok in Hcol. symmetry. by eapply Forall2_length.
  - intros e He. unfold column_1 in He. apply traverse_Raise in He as (row & _ & Hrow).
    destruct (row !! 1%nat); congruence.
Qed.

(** X12 (lines 60-64).  Both input files are read before anything is done
    with either.  If the train file is not there (or is no CSV file), the
    run fails on the first read, with the pipeline object constructed and
    nothing else done: the test file is not opened.  If the train file is
    there and the test file is not, the run fails on the second read.  In
    both cases no data has been prepared, nothing is cross-validated and
    nothing is written. *)
Theorem missing_input_file (cfg : TrainConfig) (w : World) (p : Pipeline) :
  build_pipeline cfg = Ok p →
  let train_path := resolve (cwd w) (path_to_train (data_config cfg)) in
  let test_path := resolve (cwd w) (path_to_test (data_config cfg)) in
  let w' := (train cfg w).1 in
  ((∀ d, files (fs w) !! train_path ≠ Some (CsvFile d)) →
   (train cfg w).2 = Raise DataError ∧ fs w' = fs w ∧
   new_entries w w' = [(NewPipeline p, true); (ReadCsv train_path, false)]) ∧
  (∀ train_data,
     files (fs w) !! train_path = Some (CsvFile train_data) →
     (∀ d, files (fs w) !! test_path ≠ Some (CsvFile d)) →
     (train cfg w).2 = Raise DataError ∧ fs w' = fs w ∧
     new_entries w w' = [(NewPipeline p, true); (ReadCsv train_path, true);
                         (ReadCsv test_path, false)]).
Proof.
  intros Hb. cbv zeta.
  assert (∀ path f, (∀ d, files f !! path ≠ Some (CsvFile d)) →
                    load_csv path f = (f, Raise DataError)) as Hmissing.
  { intros path f Hno. unfold load_csv.
    destruct (files f !! path) as [[d| | |]|] eqn:Hf; try reflexivity.
    by destruct (Hno d). }
  split.
  - intros Hno. run_unfold. rewrite Hb. cbn [fs heap cwd trace].
    unfold allocate. cbn [fs heap cwd trace is_ok].
    rewrite (Hmissing _ _ Hno). cbn [fst snd fs heap cwd trace is_ok].
    rewrite <- app_assoc, new_entries_app. done.
  - intros train_data Htrain Hno. run_unfold. rewrite Hb. cbn [fs heap cwd trace].
    unfold allocate. cbn [fs heap cwd trace is_ok].
    assert (load_csv (resolve (cwd w) (path_to_train (data_config cfg))) (fs w)
            = (fs w, Ok train_data)) as ->
      by (unfold load_csv; by rewrite Htrain).
    cbn [fst snd fs heap cwd trace is_ok].
    rewrite (Hmissing _ _ Hno). cbn [fst snd fs heap cwd trace is_ok].
    rewrite <- !app_assoc, new_entries_app. done.
Qed.

(** ** The cross-validation pass *)

Lemma forallb_false_exists {A} (f : A → bool) (l : list A) :
  forallb f l = false → ∃ x, x ∈ l ∧ f x = false.
Proof.
  induction l as [|a l IH]; simpl; [discriminate |].
  destruct (f a) eqn:Hf; simpl.
  - intros Hl. destruct (IH Hl) as (x & Hx & Hfx).
    exists x. split; [by apply list_elem_of_further | exact Hfx].
  - intros _. exists a. split; [apply list_elem_of_here | exact Hf].
Qed.

(** The scoring that [cross_validate] accepts. *)
Lemma check_scoring_Ok (scoring : list string)
    (scorers : list (list (list Float) → list Z → Outcome Q)) :
  check_scoring scoring = Ok scorers →
  scoring ≠ [] ∧ NoDup scoring ∧ length scorers = length scoring ∧
  ∀ s, s ∈ scoring → is_Some (get_scorer s).
Proof.
  unfold check_scoring. case_bool_decide as Hnil; [discriminate |].
  case_bool_decide as Hdup; [|discriminate].
  intros Hsc. apply traverse_Ok in Hsc.
  split; [exact Hnil |]. split; [exact Hdup |].
  split; [symmetry; by eapply Forall2_length |].
  intros name Hin. apply list_elem_of_lookup in Hin as [i Hi].
  destruct (Forall2_lookup_l _ _ _ _ _ Hsc Hi) as (sc & _ & Hget).
  simpl in Hget. by destruct (get_scorer name).
Qed.

(** What a fold does: it adds one clone, reports whether the fit on the
    training part succeeded, and gives two durations followed by one test
    score per scorer. *)
Lemma run_fold_clone (p : Pipeline)
    (scorers : list (list (list Float) → list Z → Outcome Q)) (fd : Fold)
    (h h' : gmap nat PipelineObj) (res : bool * list CvCell) :
  run_fold p scorers fd h = (h', res) →
  (∃ clone, obj_pipeline clone = p ∧ h' = <[fresh (dom h) := clone]> h) ∧
  res.1 = is_ok (pipeline_fit p (fold_train fd).1 (fold_train fd).2) ∧
  ∃ xs, res.2 = [Elapsed; Elapsed] ++ map TestScore xs ∧
        length xs = length scorers.
Proof.
  unfold run_fold.
  destruct (fold_train fd) as [Xtr ytr], (fold_test fd) as [Xte yte]. simpl.
  destruct (pipeline_fit p Xtr ytr) as [f|]; intros [= <- <-]; simpl.
  - split; [eexists; split; [|reflexivity]; reflexivity |].
    split; [reflexivity |]. eexists. split.
    + do 2 f_equal. symmetry. apply map_map.
    + apply length_map.
  - split; [eexists; split; [|reflexivity]; reflexivity |].
    split; [reflexivity |]. exists (map (λ _, FNaN) scorers). split.
    + do 2 f_equal. by rewrite map_map.
    + apply length_map.
Qed.

Lemma run_folds_rows (p : Pipeline)
    (scorers : list (list (list Float) → list Z → Outcome Q)) (folds : list Fold)
    (h h' : gmap nat PipelineObj) (results : list (bool * list CvCell)) :
  run_folds p scorers folds h = (h', results) →
  h ⊆ h' ∧ size h' = (size h + length folds)%nat ∧
  Forall2 (λ (fd : Fold) (res : bool * list CvCell),
             res.1 = is_ok (pipeline_fit p (fold_train fd).1 (fold_train fd).2) ∧
             ∃ xs, res.2 = [Elapsed; Elapsed] ++ map TestScore xs ∧
                   length xs = length scorers)
          folds results.
Proof.
  revert h h' results. induction folds as [|fd folds IH]; intros h h' results; simpl.
  - intros [= <- <-]. split; [done |]. split; [lia | constructor].
  - destruct (run_fold p scorers fd h) as [h1 res] eqn:Hfd.
    apply run_fold_clone in Hfd as [(clone & _ & ->) Hres].
    assert (h !! fresh (dom h) = None) as Hnew
      by apply not_elem_of_dom, is_fresh.
    pose proof (insert_subseteq h (fresh (dom h)) clone Hnew) as Hsub.
    destruct (run_folds p scorers folds _) as [h2 rest] eqn:Hrest.
    apply IH in Hrest as (Hsub2 & Hsize & Hall).
    intros [= <- <-]. split; [by etrans |]. split.
    + rewrite Hsize, map_size_insert_None by exact Hnew. lia.
    + by constructor.
Qed.

(** X13 (lines 33-43).  A cross-validation pass that succeeds was given a
    scoring list that is not empty, names no scorer twice and names known
    scorers only; it has prepared the data it was given, split it into the
    folds of the configured splitter, and the fit has succeeded in one
    fold at least.  The table it logs has the columns fit_time and
    score_time followed by one column test_NAME per configured scoring
    name, and one row per fold: two durations, then one test score per
    scoring name.  The pass returns nothing, the table goes to the log and
    nowhere else.  Every object there was is still there unchanged, one
    object per fold has been added, and the files are untouched. *)
Theorem cross_val_logs_one_row_per_fold (cls_pipeline : nat) (data : DataFrame)
    (cfg : TrainConfig) (w w' : World) :
  cross_val cls_pipeline data cfg w = (w', Ok ()) →
  ∃ X y cleaned folds table o fd,
    clean_data data (unique_values_limit (data_config cfg)) = Ok cleaned ∧
    prepared cfg data = Ok (X, y) ∧
    scores (cross_val_config cfg) ≠ [] ∧
    NoDup (scores (cross_val_config cfg)) ∧
    (∀ s, s ∈ scores (cross_val_config cfg) → is_Some (get_scorer s)) ∧
    cv_split (cv (cross_val_config cfg)) X y = Ok folds ∧
    heap w !! cls_pipeline = Some o ∧ fd ∈ folds ∧
    is_ok (pipeline_fit (obj_pipeline o) (fold_train fd).1 (fold_train fd).2) = true ∧
    sf_columns table
      = ["fit_time"; "score_time"]
        ++ map (λ s, "test_" +:+ s) (scores (cross_val_config cfg)) ∧
    length (sf_rows table) = length folds ∧
    Forall (λ row, ∃ xs, row = [Elapsed; Elapsed] ++ map TestScore xs ∧
                         length xs = length (scores (cross_val_config cfg)))
           (sf_rows table) ∧
    new_entries w w'
      = [(CleanData data (unique_values_limit (data_config cfg)), true);
         (FeatureTargetSplit cleaned (target_variable (data_config cfg)), true);
         (CrossValidate cls_pipeline X y (scores (cross_val_config cfg))
                        (cv (cross_val_config cfg)), true);
         (Log (LogCrossVal table), true)] ∧
    heap w ⊆ heap w' ∧
    size (heap w') = (size (heap w) + length folds)%nat ∧
    fs w' = fs w ∧ cwd w' = cwd w.
Proof.
  run_unfold.
  destruct (clean_data _ _) as [cleaned|] eqn:Hclean;
    cbn [fs heap cwd trace is_ok fst snd]; [|discriminate].
  destruct (feature_target_split _ _) as [[X y]|] eqn:Hsplit;
    cbn [fs heap cwd trace is_ok fst snd]; [|discriminate].
  destruct (cross_validate_clones _ _ _ _ _ _) as [h' [table|]] eqn:Hcv;
    cbn [fs heap cwd trace is_ok fst snd]; [|discriminate].
  intros [= <-]. rewrite <- !app_assoc, new_entries_app. cbn [app fs heap cwd].
  unfold cross_validate_clones in Hcv.
  destruct (heap w !! cls_pipeline) as [o|] eqn:Hobj; [|discriminate].
  destruct (check_scoring (scores (cross_val_config cfg))) as [scorers|] eqn:Hsc;
    [|discriminate].
  destruct (cv_split _ X y) as [folds|] eqn:Hfolds; [|discriminate].
  destruct (run_folds (obj_pipeline o) scorers folds (heap w))
    as [h2 results] eqn:Hrun.
  destruct (forallb _ results) eqn:Hfailed; [discriminate |].
  injection Hcv as <- <-.
  apply run_folds_rows in Hrun as (Hsub & Hsize & Hrows).
  apply check_scoring_Ok in Hsc as (Hnil & Hdup & Hlen & Hknown).
  assert (∃ fd, fd ∈ folds ∧
                is_ok (pipeline_fit (obj_pipeline o)
                                    (fold_train fd).1 (fold_train fd).2) = true)
    as (fd & Hfd & Hfit).
  { apply forallb_false_exists in Hfailed as (res & Hres & Hok).
    apply negb_false_iff in Hok.
    apply list_elem_of_lookup in Hres as [i Hi].
    destruct (Forall2_lookup_r _ _ _ _ _ Hrows Hi) as (fd & Hfd & Hfit & _).
    exists fd. split; [by eapply list_elem_of_lookup_2 |].
    by rewrite <- Hfit. }
  exists X, y, cleaned, folds,
    (MkScoreFrame (["fit_time"; "score_time"]
                   ++ map (λ s, "test_" +:+ s) (scores (cross_val_config cfg)))
                  (map snd results)), o, fd.
  split; [reflexivity |].
  split; [unfold prepared; by rewrite Hclean |].
  do 3 (split; [done |]). split; [exact Hfolds |].
  do 3 (split; [done |]). split; [reflexivity |].
  cbn [sf_rows]. split; [rewrite length_map; symmetry; by eapply Forall2_length |].
  split; [|done].
  apply Forall_fmap, Forall_forall. intros res Hres.
  apply list_elem_of_lookup in Hres as [i Hi].
  destruct (Forall2_lookup_r _ _ _ _ _ Hrows Hi) as (fd' & _ & _ & xs & Hxs & Hlx).
  exists xs. split; [exact Hxs | by rewrite Hlx].
Qed.

End RunFacts.

(** ** The properties on the small instance *)

Section SampleRun.
Import Sample.

(** Columns A, B, C and one transformer over A: the transformed matrix is
    the one column derived from A.  Under [Passthrough] B and C would
    follow it. *)
Example abc_drop :
  ct_fit_transform (over_A Drop) abc [0; 1]%Z
  = Ok ([()], [[CNum 1]; [CNum 4]]).
Proof. reflexivity. Qed.

Example abc_passthrough :
  ct_fit_transform (over_A Passthrough) abc [0; 1]%Z
  = Ok ([()], [[CNum 1; CNum 2; CNum 3]; [CNum 4; CNum 5; CNum 6]]).
Proof. reflexivity. Qed.

Example sample_run_succeeds : (train cfg world).2 = Ok ().
Proof. vm_compute. reflexivity. Qed.

Lemma sample_build : build_pipeline cfg = Ok pipeline.
Proof. vm_compute. reflexivity. Qed.

Lemma build_pipeline_stage_order_sample :
  build_pipeline cfg = Ok pipeline ∧
  ∃ ct cls,
    steps pipeline = [("feature_transform", StepColumns ct); ("cls", StepEstimator cls)] ∧
    length (ct_transformers ct) = length (transformers cfg) ∧
    ∀ n t, transformers cfg !! n = Some t →
      ∃ e, ct_transformers ct !! n = Some (stage_name t, e, columns t) ∧
           instantiate (classname t) (params t) = Ok e ∧
           est_class e = classname t ∧ est_kwargs e = params t.
Proof.
  split; [exact sample_build |].
  apply (build_pipeline_stage_order cfg pipeline). exact sample_build.
Defined.

Lemma classifier_built_without_classname_sample :
  build_pipeline cfg = Ok pipeline ∧
  ∃ name cls,
    steps pipeline !! 1%nat = Some ("cls", StepEstimator cls) ∧
    cls_config cfg !! "classname" = Some (VStr name) ∧
    cls_params cfg = Ok (est_kwargs cls) ∧
    instantiate name (est_kwargs cls) = Ok cls ∧
    est_class cls = name ∧
    est_kwargs cls !! "classname" = None ∧
    ∀ k, k ≠ "classname" → est_kwargs cls !! k = cls_config cfg !! k.
Proof.
  split; [exact sample_build |].
  apply (classifier_built_without_classname cfg pipeline). exact sample_build.
Defined.

Lemma pair_with_outcome {A B} (p : A * B) (b : B) : p.2 = b → p = (p.1, b).
Proof. destruct p. simpl. by intros ->. Qed.

Lemma sample_cv_entry : (cv_event, true) ∈ new_entries world (train cfg world).1.
Proof. apply (list_elem_of_lookup_2 _ 6%nat). vm_compute. reflexivity. Qed.

Lemma sample_auc_entry : (auc_event, true) ∈ new_entries world (train cfg world).1.
Proof. apply (list_elem_of_lookup_2 _ 15%nat). vm_compute. reflexivity. Qed.

Lemma sample_agree :
  agree_on (concat (map columns (transformers cfg))) train_csv train_csv_other.
Proof.
  change (concat (map columns (transformers cfg))) with ["x"].
  assert (∀ c : string, c ∈ ["x"] → c = "x") as Hx.
  { intros c Hc. by apply list_elem_of_singleton in Hc. }
  split.
  - intros c Hc. rewrite (Hx c Hc).
    split; intros _; apply list_elem_of_here.
  - unfold train_csv_other; unfold train_csv. cbn [df_rows map].
    do 4 (constructor; [intros c Hc; rewrite (Hx c Hc); vm_compute; reflexivity |]).
    constructor.
Qed.

Lemma sample_save :
  save_metric ["work"; "out"; "metric.json"] (3 # 4) world
  = ((save_metric ["work"; "out"; "metric.json"] (3 # 4) world).1, Ok ()).
Proof. apply pair_with_outcome. vm_compute. reflexivity. Qed.

Lemma sample_train : train cfg world = ((train cfg world).1, Ok ()).
Proof. apply pair_with_outcome. vm_compute. reflexivity. Qed.

Lemma cross_validation_on_union_sample :
  (cv_event, true) ∈ new_entries world (train cfg world).1 ∧
  ∃ train_data test_data,
    files (fs world) !! resolve (cwd world) (path_to_train (data_config cfg))
      = Some (CsvFile train_data) ∧
    files (fs world) !! resolve (cwd world) (path_to_test (data_config cfg))
      = Some (CsvFile test_data) ∧
    prepared cfg (df_append train_data test_data)
      = Ok (features (df_append train_csv test_csv), [0; 1; 1; 0; 0; 1; 1; 0]%Z) ∧
    df_rows (df_append train_data test_data)
      = df_rows train_data ++ df_rows test_data ∧
    ["roc_auc"] = scores (cross_val_config cfg) ∧
    2%nat = cv (cross_val_config cfg).
Proof.
  split; [exact sample_cv_entry |].
  exact (cross_validation_on_union cfg world cv_event true sample_cv_entry).
Defined.

Lemma unlisted_columns_dropped_sample :
  build_pipeline cfg = Ok pipeline ∧
  agree_on (concat (map columns (transformers cfg))) train_csv train_csv_other ∧
  ∃ ct, steps pipeline !! 0%nat = Some ("feature_transform", StepColumns ct) ∧
        remainder ct = Drop ∧
        remainder_block ct train_csv = Ok [] ∧
        referenced_columns ct = concat (map columns (transformers cfg)) ∧
        ct_fit_transform ct train_csv [0; 1; 1; 0]%Z
          = ct_fit_transform ct train_csv_other [0; 1; 1; 0]%Z ∧
        (∀ sts, ct_transform ct sts train_csv = ct_transform ct sts train_csv_other) ∧
        pipeline_fit pipeline train_csv [0; 1; 1; 0]%Z
          = pipeline_fit pipeline train_csv_other [0; 1; 1; 0]%Z ∧
        (∀ f, pipeline_predict_proba pipeline f train_csv
              = pipeline_predict_proba pipeline f train_csv_other).
Proof.
  split; [exact sample_build |]. split; [exact sample_agree |].
  exact (unlisted_columns_dropped cfg pipeline train_csv train_csv_other
           [0; 1; 1; 0]%Z sample_build sample_agree).
Defined.

Lemma evaluator_scores_second_column_sample :
  (auc_event, true) ∈ new_entries world (train cfg world).1 ∧
  ∃ train_data test_data Xtr ytr Xte p f proba,
    files (fs world) !! resolve (cwd world) (path_to_train (data_config cfg))
      = Some (CsvFile train_data) ∧
    files (fs world) !! resolve (cwd world) (path_to_test (data_config cfg))
      = Some (CsvFile test_data) ∧
    prepared cfg train_data = Ok (Xtr, ytr) ∧
    prepared cfg test_data = Ok (Xte, [0; 1; 1; 0]%Z) ∧
    build_pipeline cfg = Ok p ∧
    pipeline_fit p Xtr ytr = Ok f ∧
    pipeline_predict_proba p f Xte = Ok proba ∧
    column_1 proba = Ok (map FNum [2 # 10; 8 # 10; 3 # 10; 6 # 10]%Q) ∧
    Forall2 (λ row q, row !! 1%nat = Some q) proba
            (map FNum [2 # 10; 8 # 10; 3 # 10; 6 # 10]%Q) ∧
    true = is_ok (roc_auc_score [0; 1; 1; 0]%Z
                                (map FNum [2 # 10; 8 # 10; 3 # 10; 6 # 10]%Q)).
Proof.
  split; [exact sample_auc_entry |].
  exact (evaluator_scores_second_column cfg world auc_event true sample_auc_entry).
Defined.

Lemma evaluation_range_sample :
  let y_true := [0; 1; 1; 0]%Z in
  let y_score := map FNum [2 # 10; 8 # 10; 3 # 10; 6 # 10]%Q in
  (RocAucScore y_true y_score, true) ∈ new_entries world (train cfg world).1 ∧
  (is_ok (roc_auc_score y_true y_score) = true ↔
   length (remove_dups y_true) = 2%nat ∧ length y_true = length y_score ∧
   Forall (λ x, is_finite x = true) y_score) ∧
  (∀ v, roc_auc_score y_true y_score = Ok v → (0 <= v)%Q ∧ (v <= 1)%Q) ∧
  (∀ e, roc_auc_score y_true y_score = Raise e → e = DataError) ∧
  (length (remove_dups y_true) ≠ 2%nat →
   roc_auc_score y_true y_score = Raise DataError) ∧
  ∀ (cfg : TrainConfig) (w : World) (ok : bool),
    (RocAucScore y_true y_score, ok) ∈ new_entries w (train cfg w).1 →
    ok = is_ok (roc_auc_score y_true y_score) ∧
    (∀ v, roc_auc_score y_true y_score = Ok v →
          (Log (LogScore v), true) ∈ new_entries w (train cfg w).1) ∧
    (ok = false →
     (train cfg w).2 = Raise DataError ∧ fs (train cfg w).1 = fs w).
Proof.
  cbv zeta. split; [exact sample_auc_entry |].
  exact (evaluation_range [0; 1; 1; 0]%Z
           (map FNum [2 # 10; 8 # 10; 3 # 10; 6 # 10]%Q)).
Defined.

(** C5 as stated fails.  A test target with the three classes 0, 1 and 2
    contains at least two distinct classes; the cross-validation returns,
    the evaluation is reached, and it raises a DataError instead of
    returning a value in [0, 1]. *)
Lemma three_class_evaluation_fails :
  let w' := (train cfg three_class_world).1 in
  let y_true := [0; 1; 2; 0]%Z in
  let y_score := map FNum [2 # 10; 8 # 10; 3 # 10; 6 # 10]%Q in
  (KCrossValidate, true) ∈ outcomes (new_entries three_class_world w') ∧
  (RocAucScore y_true y_score, false) ∈ new_entries three_class_world w' ∧
  (2 ≤ length (remove_dups y_true))%nat ∧
  ¬ (∃ v, roc_auc_score y_true y_score = Ok v ∧ (0 <= v)%Q ∧ (v <= 1)%Q) ∧
  (train cfg three_class_world).2 = Raise DataError.
Proof.
  cbv zeta. split.
  { apply (list_elem_of_lookup_2 _ 6%nat). vm_compute. reflexivity. }
  split.
  - apply (list_elem_of_lookup_2 _ 15%nat). vm_compute. reflexivity.
  - split; [vm_compute; lia |]. split.
    + intros (v & Hv & _). vm_compute in Hv. discriminate.
    + vm_compute. reflexivity.
Qed.

(** An empty scoring list is rejected by the cross-validation, where the
    run ends. *)
Example empty_scoring_rejected :
  (KCrossValidate, false) ∈ outcomes (new_entries world (train cfg_unscored world).1).
Proof. apply (list_elem_of_lookup_2 _ 6%nat). vm_compute. reflexivity. Qed.

Lemma save_metric_idempotent_sample :
  let path := ["work"; "out"; "metric.json"] in
  let w1 := (save_metric path (3 # 4) world).1 in
  save_metric path (3 # 4) world = (w1, Ok ()) ∧
  files (fs w1) = <[path := TextFile (metric_text (3 # 4))]> (files (fs world)) ∧
  metric_text (3 # 4)
    = ("{" +:+ dquote +:+ "ROC AUC" +:+ dquote +:+ ": " +:+ float_repr (3 # 4) +:+ "}") ∧
  (∀ k, (0 < k < length path)%nat → take k path ∈ dirs (fs w1)) ∧
  dirs (fs world) ⊆ dirs (fs w1) ∧
  ∃ w2, save_metric path (3 # 4) w1 = (w2, Ok ()) ∧ fs w2 = fs w1.
Proof.
  cbv zeta. split; [exact sample_save |].
  exact (save_metric_idempotent _ _ _ _ sample_save).
Defined.

Lemma pipeline_fitted_once_on_train_sample :
  let w' := (train cfg world).1 in
  train cfg world = (w', Ok ()) ∧
  ∃ p train_data X y f,
    let id := fresh (dom (heap world)) in
    let fitted := MkPipelineObj p (Some f) [(X, y)] in
    let new := new_entries world w' in
    build_pipeline cfg = Ok p ∧
    files (fs world) !! resolve (cwd world) (path_to_train (data_config cfg))
      = Some (CsvFile train_data) ∧
    prepared cfg train_data = Ok (X, y) ∧
    pipeline_fit p X y = Ok f ∧
    heap w' !! id = Some fitted ∧
    files (fs w') !! resolve (cwd world) (model_path cfg) = Some (PickleFile fitted) ∧
    filter (λ e : Entry, kind e.1 = KFit) new = [(Fit id X y, true)] ∧
    (∀ est Xc yc sc k ok, (CrossValidate est Xc yc sc k, ok) ∈ new → est = id) ∧
    (∀ est path ok, (DumpPickle est path, ok) ∈ new → est = id) ∧
    (∀ w0 est data o, heap w0 !! est = Some o →
                      heap (cross_val est data cfg w0).1 !! est = Some o).
Proof.
  cbv zeta. split; [exact sample_train |].
  exact (pipeline_fitted_once_on_train cfg world _ sample_train).
Defined.

(** C2 as stated fails.  With the metric file write-protected the write of
    the metric raises, the run ends there with exit status 1, and the model
    artifact is neither attempted nor written. *)
Lemma metric_write_failure_ends_run :
  let w' := (train cfg protected_world).1 in
  let done := outcomes (new_entries protected_world w') in
  (KWriteText, false) ∈ done ∧
  ¬ (∃ ok, (KDumpPickle, ok) ∈ done) ∧
  files (fs w') !! resolve (cwd protected_world) (model_path cfg) = None ∧
  (main cfg protected_world).2 = 1%Z.
Proof.
  cbv zeta. set (done := outcomes _). vm_compute in done. subst done.
  split; [apply list_elem_of_In; cbn [In]; tauto |].
  split.
  - intros [ok Hin]. apply list_elem_of_In in Hin. cbn [In] in Hin.
    intuition discriminate.
  - split; vm_compute; reflexivity.
Qed.

(** ** Further properties on the small instance *)

Lemma sample_no_metric :
  (KRocAucScore, true)
  ∉ outcomes (new_entries three_class_world (train cfg three_class_world).1).
Proof.
  set (done := outcomes _). vm_compute in done. subst done.
  intros Hin. apply list_elem_of_In in Hin. cbn [In] in Hin.
  intuition discriminate.
Qed.

Lemma no_metric_no_output_sample :
  ((KRocAucScore, true)
   ∉ outcomes (new_entries three_class_world
                           (train cfg three_class_world).1)) ∧
  fs (train cfg three_class_world).1 = fs three_class_world ∧
  is_ok (train cfg three_class_world).2 = false.
Proof.
  split; [exact sample_no_metric |].
  exact (no_metric_no_output cfg three_class_world sample_no_metric).
Defined.

Lemma sample_busy : heap busy_world !! 7%nat = Some (MkPipelineObj pipeline None []).
Proof. vm_compute. reflexivity. Qed.

Lemma run_keeps_other_objects_sample :
  heap busy_world !! 7%nat = Some (MkPipelineObj pipeline None []) ∧
  heap (train cfg busy_world).1 !! 7%nat = Some (MkPipelineObj pipeline None []) ∧
  ∀ e ok, (e, ok) ∈ new_entries busy_world (train cfg busy_world).1 →
    match e with
    | CrossValidate est _ _ _ _ | Fit est _ _ | PredictProba est _
    | DumpPickle est _ => est ≠ 7%nat
    | _ => True
    end.
Proof.
  split; [exact sample_busy |].
  exact (run_keeps_other_objects cfg busy_world 7%nat _ sample_busy).
Defined.

Lemma absolute_paths_ignore_cwd_sample :
  let run1 := train cfg_absolute (MkWorld ["work"] disk ∅ []) in
  let run2 := train cfg_absolute (MkWorld ["elsewhere"] disk ∅ []) in
  is_abs (path_to_train (data_config cfg_absolute)) = true ∧
  is_abs (path_to_test (data_config cfg_absolute)) = true ∧
  is_abs (output_metric cfg_absolute) = true ∧
  is_abs (model_path cfg_absolute) = true ∧
  run1.2 = run2.2 ∧ fs run1.1 = fs run2.1 ∧ heap run1.1 = heap run2.1 ∧
  trace run1.1 = trace run2.1.
Proof.
  cbv zeta. do 4 (split; [reflexivity |]).
  exact (absolute_paths_ignore_cwd cfg_absolute ["work"] ["elsewhere"] disk ∅ []
           eq_refl eq_refl eq_refl eq_refl).
Defined.

Example absolute_run_succeeds :
  (train cfg_absolute (MkWorld ["elsewhere"] disk ∅ [])).2 = Ok ().
Proof. vm_compute. reflexivity. Qed.

Lemma sample_unknown_lookup : transformers cfg_unknown_transformer !! 1%nat = Some unknown_spec.
Proof. reflexivity. Qed.

Lemma sample_unknown_raises :
  instantiate (classname unknown_spec) (params unknown_spec) = Raise ResolutionError.
Proof. vm_compute. reflexivity. Qed.

Lemma sample_unknown_before (j : nat) (t' : TransformSpec) :
  (j < 1)%nat → transformers cfg_unknown_transformer !! j = Some t' →
  is_ok (instantiate (classname t') (params t')) = true.
Proof.
  intros Hj. assert (j = 0%nat) as -> by lia.
  intros [= <-]. vm_compute. reflexivity.
Qed.

Lemma first_failing_transform_is_reported_sample :
  transformers cfg_unknown_transformer !! 1%nat = Some unknown_spec ∧
  instantiate (classname unknown_spec) (params unknown_spec) = Raise ResolutionError ∧
  (∀ j t', (j < 1)%nat → transformers cfg_unknown_transformer !! j = Some t' →
           is_ok (instantiate (classname t') (params t')) = true) ∧
  build_pipeline cfg_unknown_transformer = Raise ResolutionError ∧
  (ResolutionError = ResolutionError ∧ class_known (classname unknown_spec) = false ∨
   ResolutionError = ConstructionError ∧ class_known (classname unknown_spec) = true ∧
   kwargs_accepted (classname unknown_spec) (params unknown_spec) = false) ∧
  ∀ w, train cfg_unknown_transformer w = (w, Raise ResolutionError) ∧
       (main cfg_unknown_transformer w).2 = 1%Z.
Proof.
  split; [exact sample_unknown_lookup |]. split; [exact sample_unknown_raises |].
  split; [exact sample_unknown_before |].
  exact (first_failing_transform_is_reported cfg_unknown_transformer 1 unknown_spec
           ResolutionError sample_unknown_lookup sample_unknown_raises
           sample_unknown_before).
Defined.

Lemma sample_keep_spec :
  MkTransformSpec "keep" "sklearn.preprocessing.FunctionTransformer" ∅ ["x"]
  ∈ transformers cfg.
Proof. apply list_elem_of_here. Qed.

Lemma sample_x_listed :
  "x" ∈ columns (MkTransformSpec "keep" "sklearn.preprocessing.FunctionTransformer"
                                 ∅ ["x"]).
Proof. apply list_elem_of_here. Qed.

Lemma sample_x_missing : "x" ∉ df_columns abc.
Proof.
  intros Hin. apply list_elem_of_In in Hin. cbn [In df_columns abc] in Hin.
  intuition discriminate.
Qed.

Lemma unknown_column_fails_at_fit_sample :
  build_pipeline cfg = Ok pipeline ∧
  MkTransformSpec "keep" "sklearn.preprocessing.FunctionTransformer" ∅ ["x"]
  ∈ transformers cfg ∧
  "x" ∈ columns (MkTransformSpec "keep" "sklearn.preprocessing.FunctionTransformer"
                                 ∅ ["x"]) ∧
  ("x" ∉ df_columns abc) ∧
  is_ok (pipeline_fit pipeline abc [0; 1]%Z) = false ∧
  ∀ f, is_ok (pipeline_predict_proba pipeline f abc) = false.
Proof.
  split; [exact sample_build |]. split; [exact sample_keep_spec |].
  split; [exact sample_x_listed |]. split; [exact sample_x_missing |].
  exact (unknown_column_fails_at_fit cfg pipeline abc [0; 1]%Z _ "x" sample_build
           sample_keep_spec sample_x_listed sample_x_missing).
Defined.

Lemma sample_build_no_transformer :
  build_pipeline cfg_no_transformer = Ok pipeline_no_transformer.
Proof. vm_compute. reflexivity. Qed.

Lemma no_transformers_no_features_sample :
  transformers cfg_no_transformer = [] ∧
  build_pipeline cfg_no_transformer = Ok pipeline_no_transformer ∧
  ∃ cls,
    steps pipeline_no_transformer
      = [("feature_transform", StepColumns (MkColumnTransformer [] Drop));
         ("cls", StepEstimator cls)] ∧
    pipeline_fit pipeline_no_transformer train_csv [0; 1; 1; 0]%Z
      = (s ← est_fit cls (replicate (length (df_rows train_csv)) []) [0; 1; 1; 0]%Z;
         Ok (MkFitted [] s)) ∧
    ∀ s, pipeline_predict_proba pipeline_no_transformer (MkFitted [] s) train_csv
         = est_predict_proba cls s (replicate (length (df_rows train_csv)) []).
Proof.
  split; [reflexivity |]. split; [exact sample_build_no_transformer |].
  exact (no_transformers_no_features cfg_no_transformer pipeline_no_transformer
           train_csv [0; 1; 1; 0]%Z eq_refl sample_build_no_transformer).
Defined.

Lemma missing_input_file_sample :
  let train_path := resolve (cwd bare_world) (path_to_train (data_config cfg)) in
  let test_path := resolve (cwd bare_world) (path_to_test (data_config cfg)) in
  let w' := (train cfg bare_world).1 in
  build_pipeline cfg = Ok pipeline ∧
  ((∀ d, files (fs bare_world) !! train_path ≠ Some (CsvFile d)) →
   (train cfg bare_world).2 = Raise DataError ∧ fs w' = fs bare_world ∧
   new_entries bare_world w'
     = [(NewPipeline pipeline, true); (ReadCsv train_path, false)]) ∧
  (∀ train_data,
     files (fs bare_world) !! train_path = Some (CsvFile train_data) →
     (∀ d, files (fs bare_world) !! test_path ≠ Some (CsvFile d)) →
     (train cfg bare_world).2 = Raise DataError ∧ fs w' = fs bare_world ∧
     new_entries bare_world w'
       = [(NewPipeline pipeline, true); (ReadCsv train_path, true);
          (ReadCsv test_path, false)]).
Proof.
  cbv zeta. split; [exact sample_build |].
  exact (missing_input_file cfg bare_world pipeline sample_build).
Defined.

Example bare_world_run : (train cfg bare_world).2 = Raise DataError.
Proof. vm_compute. reflexivity. Qed.

Lemma sample_cross_val :
  cross_val 0 train_csv cfg built_world
  = ((cross_val 0 train_csv cfg built_world).1, Ok ()).
Proof. apply pair_with_outcome. vm_compute. reflexivity. Qed.

Lemma cross_val_logs_one_row_per_fold_sample :
  let w' := (cross_val 0 train_csv cfg built_world).1 in
  cross_val 0 train_csv cfg built_world = (w', Ok ()) ∧
  ∃ X y cleaned folds table o fd,
    clean_data train_csv (unique_values_limit (data_config cfg)) = Ok cleaned ∧
    prepared cfg train_csv = Ok (X, y) ∧
    scores (cross_val_config cfg) ≠ [] ∧
    NoDup (scores (cross_val_config cfg)) ∧
    (∀ s, s ∈ scores (cross_val_config cfg) → is_Some (get_scorer s)) ∧
    cv_split (cv (cross_val_config cfg)) X y = Ok folds ∧
    heap built_world !! 0%nat = Some o ∧ fd ∈ folds ∧
    is_ok (pipeline_fit (obj_pipeline o) (fold_train fd).1 (fold_train fd).2) = true ∧
    sf_columns table
      = ["fit_time"; "score_time"]
        ++ map (λ s, "test_" +:+ s) (scores (cross_val_config cfg)) ∧
    length (sf_rows table) = length folds ∧
    Forall (λ row, ∃ xs, row = [Elapsed; Elapsed] ++ map TestScore xs ∧
                         length xs = length (scores (cross_val_config cfg)))
           (sf_rows table) ∧
    new_entries built_world w'
      = [(CleanData train_csv (unique_values_limit (data_config cfg)), true);
         (FeatureTargetSplit cleaned (target_variable (data_config cfg)), true);
         (CrossValidate 0 X y (scores (cross_val_config cfg))
                        (cv (cross_val_config cfg)), true);
         (Log (LogCrossVal table), true)] ∧
    heap built_world ⊆ heap w' ∧
    size (heap w') = (size (heap built_world) + length folds)%nat ∧
    fs w' = fs built_world ∧ cwd w' = cwd built_world.
Proof.
  cbv zeta. split; [exact sample_cross_val |].
  exact (cross_val_logs_one_row_per_fold 0 train_csv cfg built_world _ sample_cross_val).
Defined.

(** The table the sample pass logs: two folds, the durations and the
    ROC-AUC of each. *)
Example sample_cross_val_table :
  (Log (LogCrossVal
          (MkScoreFrame ["fit_time"; "score_time"; "test_roc_auc"]
                        [[Elapsed; Elapsed; TestScore (FNum (6 # 8))];
                         [Elapsed; Elapsed; TestScore (FNum (6 # 8))]])), true)
  ∈ new_entries built_world (cross_val 0 train_csv cfg built_world).1.
Proof. apply (list_elem_of_lookup_2 _ 3%nat). vm_compute. reflexivity. Qed.

(** *** Plain paths of the sample *)

Lemma sample_plain_metric : plain ["work"; "out"; "metric.json"].
Proof. repeat constructor; discriminate. Qed.

Lemma sample_plain_model : plain ["work"; "model.pkl"].
Proof. repeat constructor; discriminate. Qed.

Lemma sample_plain_disk : fs_plain disk.
Proof.
  split.
  - intros d Hd. unfold disk in Hd. cbn [dirs] in Hd.
    apply elem_of_union in Hd as [Hd | Hd]; apply elem_of_singleton in Hd as ->;
      repeat constructor; discriminate.
  - intros p [v Hp]. unfold disk in Hp. cbn [files] in Hp.
    apply lookup_insert_Some in Hp as [[<- _] | [_ Hp]].
    + repeat constructor; discriminate.
    + apply lookup_singleton_Some in Hp as [<- _].
      repeat constructor; discriminate.
Qed.

Lemma sample_plain_full : fs_plain (fs full_world).
Proof.
  destruct sample_plain_disk as [Hdirs Hfiles]. split.
  - intros d Hd. unfold full_world in Hd. cbn [fs dirs] in Hd.
    apply elem_of_union in Hd as [Hd | Hd]; [|by apply Hdirs].
    apply elem_of_singleton in Hd as ->. repeat constructor; discriminate.
  - intros p [v Hp]. unfold full_world in Hp. cbn [fs files] in Hp.
    apply lookup_insert_Some in Hp as [[<- _] | [_ Hp]].
    + exact sample_plain_metric.
    + apply Hfiles. by exists v.
Qed.

Lemma save_metric_failure_effects_sample :
  let path := ["work"; "out"; "metric.json"] in
  let run := save_metric path (3 # 4) full_world in
  plain path ∧ fs_plain (fs full_world) ∧
  fs_plain (fs run.1) ∧
  cwd run.1 = cwd full_world ∧ heap run.1 = heap full_world ∧
  locked (fs run.1) = locked (fs full_world) ∧
  dirs (fs full_world) ⊆ dirs (fs run.1) ∧
  (∀ d, d ∈ dirs (fs run.1) →
        d ∈ dirs (fs full_world) ∨ ∃ k, d = take k (dirname path)) ∧
  (∀ p, p ≠ path → files (fs run.1) !! p = files (fs full_world) !! p) ∧
  (∀ e, run.2 = Raise e →
        e = PersistenceError ∧
        (files (fs run.1) = files (fs full_world) ∨
         path ∈ failing (fs full_world) ∧
         files (fs run.1) = <[path := Truncated]> (files (fs full_world)))) ∧
  (path ∉ failing (fs full_world) → is_ok run.2 = false →
   files (fs run.1) = files (fs full_world)) ∧
  (is_ok (makedirs (dirname path) (fs full_world)).2 = true →
   is_dir path (fs full_world) = false → path ∉ locked (fs full_world) →
   path ∈ failing (fs full_world) →
   run.2 = Raise PersistenceError ∧
   files (fs run.1) = <[path := Truncated]> (files (fs full_world))).
Proof.
  cbv zeta. split; [exact sample_plain_metric |].
  split; [exact sample_plain_full |].
  exact (save_metric_failure_effects ["work"; "out"; "metric.json"] (3 # 4)
           full_world sample_plain_metric sample_plain_full).
Defined.

(** The write fails on the full device, and the metric of the earlier run
    is lost. *)
Example failed_write_truncates :
  let path := ["work"; "out"; "metric.json"] in
  files (fs full_world) !! path = Some (TextFile "earlier") ∧
  (save_metric path (3 # 4) full_world).2 = Raise PersistenceError ∧
  files (fs (save_metric path (3 # 4) full_world).1) !! path = Some Truncated.
Proof. cbv zeta. repeat split; vm_compute; reflexivity. Qed.

Lemma run_writes_metric_and_model_only_sample :
  plain (resolve (cwd world) (output_metric cfg)) ∧
  plain (resolve (cwd world) (model_path cfg)) ∧
  fs_plain (fs world) ∧
  fs_plain (fs (train cfg world).1) ∧
  cwd (train cfg world).1 = cwd world ∧
  locked (fs (train cfg world).1) = locked (fs world) ∧
  dirs (fs world) ⊆ dirs (fs (train cfg world).1) ∧
  (∀ d, d ∈ dirs (fs (train cfg world).1) →
        d ∈ dirs (fs world) ∨
        ∃ k, d = take k (dirname (resolve (cwd world) (output_metric cfg)))) ∧
  (∀ p, p ≠ resolve (cwd world) (output_metric cfg) →
        p ≠ resolve (cwd world) (model_path cfg) →
        files (fs (train cfg world).1) !! p = files (fs world) !! p) ∧
  (∀ p, is_Some (files (fs world) !! p) →
        is_Some (files (fs (train cfg world).1) !! p)) ∧
  (is_ok (train cfg world).2 = true →
   ∃ v o, files (fs (train cfg world).1)
          = <[resolve (cwd world) (model_path cfg) := PickleFile o]>
              (<[resolve (cwd world) (output_metric cfg) := TextFile (metric_text v)]>
                 (files (fs world)))).
Proof.
  split; [exact sample_plain_metric |]. split; [exact sample_plain_model |].
  split; [exact sample_plain_disk |].
  exact (run_writes_metric_and_model_only cfg world sample_plain_metric
           sample_plain_model sample_plain_disk).
Defined.

End SampleRun.
